(** * Number guessing game server: room and session state machine

    A shallow embedding of [server.js].  The server keeps three global tables
    ([gameRooms], [playerSockets], [socketToPlayer]); every socket handler and
    every timer callback is a function from the server state to the next
    server state, together with the acknowledgement it passes to its
    [callback].  Broadcasts are appended to an outbox, timers are an explicit
    table of pending callbacks, and [new Date()] is the [now] argument of the
    handler that reads the clock. *)

From Stdlib Require Import ZArith Lia List Ascii String.
From stdpp Require Import gmap strings list fin_maps.

(** ** JavaScript objects used as dictionaries

    [room.players] is a plain object keyed by socket id.  Its own string keys
    are enumerated in insertion order, and [Object.keys(..).find] and
    [Object.values(..)[0]] depend on that order, so the object is an
    association list: assignment to an existing key keeps the key's place,
    assignment to a new key appends, [delete] removes.  (Socket ids are
    20-character engine ids, never array indices, so no key is reordered.) *)
Module JsObj.

Definition t (V : Type) : Type := list (string * V).

Fixpoint get {V} (k : string) (o : t V) : option V :=
  match o with
  | [] => None
  | (k', v) :: o' => if String.eqb k' k then Some v else get k o'
  end.

Fixpoint set {V} (k : string) (v : V) (o : t V) : t V :=
  match o with
  | [] => [(k, v)]
  | (k', v') :: o' =>
      if String.eqb k' k then (k', v) :: o' else (k', v') :: set k v o'
  end.

Definition del {V} (k : string) (o : t V) : t V :=
  List.filter (fun kv => negb (String.eqb (fst kv) k)) o.

Definition keys {V} (o : t V) : list string := List.map fst o.

Definition values {V} (o : t V) : list V := List.map snd o.

Definition mapValues {V W} (f : V -> W) (o : t V) : t W :=
  List.map (fun kv => (fst kv, f (snd kv))) o.

End JsObj.

(** A property that is [undefined], [null] or set. *)
Inductive nullable (A : Type) : Type :=
| Undefined
| Null
| Value (a : A).
Arguments Undefined {A}.
Arguments Null {A}.
Arguments Value {A} a.

(** ** GuessEngine *)

(** [\d] of a JavaScript regular expression without the [u] flag: '0'..'9'. *)
Definition isDigit (c : ascii) : bool :=
  (48 <=? nat_of_ascii c) && (nat_of_ascii c <=? 57).

(** [[...new Set(digits)]]: the distinct elements, in order of first
    occurrence. *)
Definition setOf (digits : list ascii) : list ascii :=
  fold_left
    (fun acc c => if existsb (Ascii.eqb c) acc then acc else acc ++ [c])
    digits [].

(** [validateNumber(num)].  [!num] is the empty string, which also fails the
    length test; [/^\d{4}$/] holds of a string of length 4 exactly when its
    four characters are digits. *)
Definition validateNumber (num : string) : bool :=
  let digits := list_ascii_of_string num in
  if negb (length digits =? 4) then false
  else if negb (forallb isDigit digits) then false
  else length (setOf digits) =? 4.

Record GuessResult := mkGuessResult {
  correctPosition : nat;
  correctNumber : nat
}.

(** [a[i] === b[i]] on arrays of one-character strings: two [undefined]
    (both indices out of range) are equal. *)
Definition strictEq (a b : option ascii) : bool :=
  match a, b with
  | Some x, Some y => Ascii.eqb x y
  | None, None => true
  | _, _ => false
  end.

(** The counting objects [secretCount] and [guessCount]:
    [count[digit] = (count[digit] || 0) + 1]. *)
Fixpoint countGet (d : ascii) (count : list (ascii * nat)) : option nat :=
  match count with
  | [] => None
  | (d', n) :: count' => if Ascii.eqb d' d then Some n else countGet d count'
  end.

Fixpoint countIncr (d : ascii) (count : list (ascii * nat)) : list (ascii * nat) :=
  match count with
  | [] => [(d, 1)]
  | (d', n) :: count' =>
      if Ascii.eqb d' d then (d', n + 1) :: count'
      else (d', n) :: countIncr d count'
  end.

Definition countAll (digits : list ascii) : list (ascii * nat) :=
  fold_left (fun count d => countIncr d count) digits [].

(** [checkGuess(guess, secret)].  The last loop runs over the keys of
    [guessCount]; it only adds up, so the order of the keys is immaterial. *)
Definition checkGuess (guess secret : string) : GuessResult :=
  let guessDigits := list_ascii_of_string guess in
  let secretDigits := list_ascii_of_string secret in
  let correctPosition :=
    fold_left
      (fun acc i =>
         if strictEq (nth_error guessDigits i) (nth_error secretDigits i)
         then acc + 1 else acc)
      [0; 1; 2; 3] 0 in
  let secretCount := countAll secretDigits in
  let guessCount := countAll guessDigits in
  let correctNumber :=
    fold_left
      (fun acc dg =>
         match countGet (fst dg) secretCount with
         | Some (S n) => acc + Nat.min (snd dg) (S n)
         | _ => acc
         end)
      guessCount 0 in
  mkGuessResult correctPosition correctNumber.

(** ** Data model *)

(** A player object of [room.players].  [playerId] is the field [id];
    [tempDisconnected] and [reconnectedAt] are absent until first written. *)
Record Player := mkPlayer {
  playerId : string;
  playerNumber : Z;
  nickname : string;
  ready : bool;
  connected : bool;
  tempDisconnected : option bool;
  lastSeen : Z;
  reconnectedAt : option Z
}.

(** An entry of [gameState.history] ([historyItem] in [makeGuess]). *)
Record HistoryItem := mkHistoryItem {
  h_player : Z;
  h_playerName : string;
  h_guess : string;
  h_result : GuessResult;
  h_isWin : bool;
  h_timestamp : Z
}.

Record GameState := mkGameState {
  started : bool;
  currentPlayer : Z;
  secrets : gmap string string;
  history : list HistoryItem;
  winner : nullable Z;
  winningGuess : nullable string;
  startedAt : option Z
}.

(** [roomRef] is the identity of the room object: the delayed start callback
    of [submitSecret] closes over the object, not over its code. *)
Record Room := mkRoom {
  code : string;
  players : JsObj.t Player;
  gameState : GameState;
  createdAt : Z;
  disconnectTimers : gmap Z nat;
  roomRef : nat
}.

Record Session := mkSession {
  s_socketId : string;
  s_roomCode : string;
  s_playerNumber : Z;
  s_timestamp : Z
}.

(** What [createCleanPlayersObject] keeps of a player. *)
Record CleanPlayer := mkCleanPlayer {
  c_id : string;
  c_playerNumber : Z;
  c_nickname : string;
  c_ready : bool;
  c_connected : bool;
  c_tempDisconnected : bool
}.

(** Payloads of the events the server emits. *)
Inductive Payload :=
| RoomUpdate (roomCode : string) (ps : JsObj.t CleanPlayer) (gs : GameState)
| RoomUpdateBrief (roomCode : string) (ps : JsObj.t CleanPlayer)
    (isStarted : bool) (current : Z)
| PlayerDisconnected (pn : Z) (reconnectTimeLeft : Z)
| ReconnectCountdown (pn : Z) (timeLeft : Z)
| PlayerReconnected (pn : Z)
| StopReconnectCountdown (pn : Z)
| GameStart (current : Z) (at_ : Z)
| TurnChange (current : Z) (lastGuess : HistoryItem) (hist : list HistoryItem)
| GameEnd (winnerNumber : Z) (winnerName : string) (guessText : string)
    (reason : option string) (hist : list HistoryItem)
| GameReset (ps : JsObj.t CleanPlayer) (gs : GameState)
| PlayerLeft (pn : Z).

(** [socket.emit], [io.to(room).emit] and [socket.to(room).emit]. *)
Inductive Emit :=
| ToSocket (socketId : string) (p : Payload)
| ToRoom (roomCode : string) (p : Payload)
| ToRoomExcept (roomCode : string) (socketId : string) (p : Payload).

(** The [message] of an acknowledgement. *)
Inductive Message :=
| MsgRoomNotFound          (* 'ไม่พบห้อง' *)
| MsgPlayerInfoNotFound    (* 'ไม่พบข้อมูลผู้เล่น' *)
| MsgRoomCodeNotFound      (* 'ไม่พบห้องที่ระบุ' *)
| MsgRoomFull              (* 'ห้องเต็มแล้ว' *)
| MsgGameStarted           (* 'เกมเริ่มแล้ว' *)
| MsgPlayerNotFound        (* 'ไม่พบผู้เล่น' *)
| MsgAlreadySubmitted      (* 'ส่งตัวเลขแล้ว' *)
| MsgInvalidNumber         (* 'ตัวเลขไม่ถูกต้อง (ต้องเป็น 4 หลัก ไม่ซ้ำ)' *)
| MsgSubmitted             (* 'ส่งตัวเลขสำเร็จ' *)
| MsgGameNotStarted        (* 'เกมยังไม่เริ่ม' *)
| MsgNotYourTurn           (* 'ไม่ใช่ตาของคุณ' *)
| MsgOpponentSecretMissing (* 'ไม่พบตัวเลขของอีกฝ่าย' *).

(** The argument a handler passes to its [callback]. *)
Inductive Ack :=
| AckFail (m : Message)
| AckSeat (roomCode : string) (pn : Z)
| AckReconnect (gs : GameState) (ps : JsObj.t CleanPlayer)
    (mySecret : option string)
| AckOk (m : Message)
| AckGuess (r : GuessResult) (win : bool)
| AckPong.

(** The error taxonomy of the specification (ValidationError: malformed
    secret or guess; NotFoundError: room or seat absent; StateError: wrong
    turn, room full, game started or not started), by message.  The code
    itself only has the messages. *)
Inductive ErrorKind := ValidationError | NotFoundError | StateError.

Definition errorKind (m : Message) : option ErrorKind :=
  match m with
  | MsgInvalidNumber => Some ValidationError
  | MsgRoomNotFound | MsgPlayerInfoNotFound | MsgRoomCodeNotFound
  | MsgPlayerNotFound | MsgOpponentSecretMissing => Some NotFoundError
  | MsgRoomFull | MsgGameStarted | MsgGameNotStarted | MsgNotYourTurn =>
      Some StateError
  | MsgAlreadySubmitted | MsgSubmitted => None
  end.

Definition failsWith (a : Ack) (k : ErrorKind) : Prop :=
  exists m, a = AckFail m /\ errorKind m = Some k.

(** Pending timers.  An expiry callback closes over the room code and reads
    [player.playerNumber], which is never reassigned; the countdown interval
    closes over the code, the seat and its own [timeLeft]; the start callback
    closes over the room object. *)
Inductive TimerCallback :=
| ExpiryCb (roomCode : string) (pn : Z)
| CountdownCb (roomCode : string) (pn : Z) (timeLeft : Z)
| StartCb (room : nat) (roomCode : string).

Record Timer := mkTimer {
  due : Z;
  callback : TimerCallback
}.

Record Server := mkServer {
  gameRooms : gmap string Room;
  playerSockets : gmap string string;
  socketToPlayer : gmap string Session;
  timers : gmap nat Timer;
  nextTimer : nat;
  nextRoom : nat;
  emitted : list Emit
}.

Definition initial : Server := mkServer ∅ ∅ ∅ ∅ 0 0 [].

(** *** Field updates *)

Definition withRooms (f : gmap string Room -> gmap string Room) (s : Server) : Server :=
  mkServer (f (gameRooms s)) (playerSockets s) (socketToPlayer s) (timers s)
    (nextTimer s) (nextRoom s) (emitted s).

Definition withSockets (f : gmap string string -> gmap string string) (s : Server) : Server :=
  mkServer (gameRooms s) (f (playerSockets s)) (socketToPlayer s) (timers s)
    (nextTimer s) (nextRoom s) (emitted s).

Definition withSessions (f : gmap string Session -> gmap string Session) (s : Server) : Server :=
  mkServer (gameRooms s) (playerSockets s) (f (socketToPlayer s)) (timers s)
    (nextTimer s) (nextRoom s) (emitted s).

Definition withTimers (f : gmap nat Timer -> gmap nat Timer) (s : Server) : Server :=
  mkServer (gameRooms s) (playerSockets s) (socketToPlayer s) (f (timers s))
    (nextTimer s) (nextRoom s) (emitted s).

Definition emit (e : Emit) (s : Server) : Server :=
  mkServer (gameRooms s) (playerSockets s) (socketToPlayer s) (timers s)
    (nextTimer s) (nextRoom s) (emitted s ++ [e]).

(** Writing through a room reference obtained by [gameRooms.get(roomCode)]:
    the table entry under that code now holds the mutated room. *)
Definition putRoom (roomCode : string) (r : Room) (s : Server) : Server :=
  withRooms (fun m => <[roomCode := r]> m) s.

Definition withPlayers (f : JsObj.t Player -> JsObj.t Player) (r : Room) : Room :=
  mkRoom (code r) (f (players r)) (gameState r) (createdAt r)
    (disconnectTimers r) (roomRef r).

Definition withGameState (f : GameState -> GameState) (r : Room) : Room :=
  mkRoom (code r) (players r) (f (gameState r)) (createdAt r)
    (disconnectTimers r) (roomRef r).

Definition withDisconnectTimers (f : gmap Z nat -> gmap Z nat) (r : Room) : Room :=
  mkRoom (code r) (players r) (gameState r) (createdAt r)
    (f (disconnectTimers r)) (roomRef r).

Definition withSecrets (f : gmap string string -> gmap string string) (g : GameState) : GameState :=
  mkGameState (started g) (currentPlayer g) (f (secrets g)) (history g)
    (winner g) (winningGuess g) (startedAt g).

Definition setReady (b : bool) (p : Player) : Player :=
  mkPlayer (playerId p) (playerNumber p) (nickname p) b (connected p)
    (tempDisconnected p) (lastSeen p) (reconnectedAt p).

Definition setLastSeen (now : Z) (p : Player) : Player :=
  mkPlayer (playerId p) (playerNumber p) (nickname p) (ready p) (connected p)
    (tempDisconnected p) now (reconnectedAt p).

(** [setTimeout]/[setInterval]: a fresh handle, pending until it fires or is
    cleared. *)
Definition setTimer (now delay : Z) (cb : TimerCallback) (s : Server) : Server * nat :=
  (mkServer (gameRooms s) (playerSockets s) (socketToPlayer s)
     (<[nextTimer s := mkTimer (now + delay) cb]> (timers s))
     (S (nextTimer s)) (nextRoom s) (emitted s),
   nextTimer s).

(** [clearTimeout]/[clearInterval]. *)
Definition clearTimer (t : nat) (s : Server) : Server :=
  withTimers (delete t) s.

(** [for (const timer of room.disconnectTimers.values()) clearTimeout(timer)]. *)
Definition clearTimers (table : gmap Z nat) (s : Server) : Server :=
  map_fold (fun _ t acc => clearTimer t acc) s table.

(** ** Helpers of the server *)

Definition createCleanPlayersObject (ps : JsObj.t Player) : JsObj.t CleanPlayer :=
  JsObj.mapValues
    (fun p =>
       mkCleanPlayer (playerId p) (playerNumber p) (nickname p) (ready p)
         (connected p)
         (match tempDisconnected p with Some b => b | None => false end))
    ps.

(** [savePlayerSession]; the copy kept on the socket object is never read. *)
Definition savePlayerSession (socketId roomCode : string) (pn now : Z) (s : Server) : Server :=
  withSessions (fun m => <[socketId := mkSession socketId roomCode pn now]> m) s.

(** [findPlayerBySession]: the first entry of the given seat number. *)
Definition findPlayerBySession (s : Server) (roomCode : string) (pn : Z)
  : option (string * Player) :=
  match gameRooms s !! roomCode with
  | None => None
  | Some room =>
      List.find (fun kv => Z.eqb (playerNumber (snd kv)) pn) (players room)
  end.

(** The room of a socket: [gameRooms.get(playerSockets.get(socket.id))]. *)
Definition roomOf (s : Server) (socketId : string) : option Room :=
  match playerSockets s !! socketId with
  | None => None
  | Some roomCode => gameRooms s !! roomCode
  end.

(** The game state literal of [createRoom] and of [leaveRoom]. *)
Definition lobbyState : GameState :=
  mkGameState false 1 ∅ [] Undefined Undefined None.

(** The game state literal of [resetGame], with [winner] and [winningGuess]
    set to [null]. *)
Definition resetState : GameState :=
  mkGameState false 1 ∅ [] Null Null None.

(** ** Reconnection and expiry *)

(** [handleReconnection(socket, roomCode, playerNumber)]. *)
Definition handleReconnection (s : Server) (socketId roomCode : string) (pn now : Z)
  : Server * Ack :=
  match gameRooms s !! roomCode with
  | None => (s, AckFail MsgRoomNotFound)
  | Some room =>
      match findPlayerBySession s roomCode pn with
      | None => (s, AckFail MsgPlayerInfoNotFound)
      | Some (oldSocketId, player) =>
          let player' :=
            mkPlayer socketId (playerNumber player) (nickname player)
              (ready player) true (Some false) now (Some now) in
          let ps1 := JsObj.set socketId player' (players room) in
          let ps2 :=
            if negb (String.eqb oldSocketId socketId)
            then JsObj.del oldSocketId ps1 else ps1 in
          let room1 := withPlayers (fun _ => ps2) room in
          let s1 := withSockets (fun m => <[socketId := roomCode]> m) s in
          let s2 := savePlayerSession socketId roomCode pn now s1 in
          let '(room2, s3) :=
            match disconnectTimers room1 !! pn with
            | Some t => (withDisconnectTimers (delete pn) room1, clearTimer t s2)
            | None => (room1, s2)
            end in
          (putRoom roomCode room2 s3,
           AckReconnect (gameState room2)
             (createCleanPlayersObject (players room2))
             (secrets (gameState room2) !! socketId))
      end
  end.

(** The [attemptReconnect] handler. *)
Definition attemptReconnect (s : Server) (socketId roomCode : string) (pn now : Z)
  : Server * Ack :=
  let '(s1, result) := handleReconnection s socketId roomCode pn now in
  match result with
  | AckReconnect _ _ _ =>
      (emit (ToRoomExcept roomCode socketId (StopReconnectCountdown pn))
         (emit (ToRoomExcept roomCode socketId (PlayerReconnected pn)) s1),
       result)
  | _ => (s1, result)
  end.

(** [startReconnectCountdown]: a one-second interval that carries its own
    [timeLeft]. *)
Definition startReconnectCountdown (s : Server) (roomCode : string) (pn duration now : Z)
  : Server :=
  fst (setTimer now 1000 (CountdownCb roomCode pn duration) s).

(** [handlePlayerDisconnect(socket, roomCode)]. *)
Definition handlePlayerDisconnect (s : Server) (socketId roomCode : string) (now : Z)
  : Server :=
  match gameRooms s !! roomCode with
  | None => s
  | Some room =>
      match JsObj.get socketId (players room) with
      | None => s
      | Some player =>
          let player' :=
            mkPlayer (playerId player) (playerNumber player) (nickname player)
              (ready player) false (Some true) now (reconnectedAt player) in
          let room1 := withPlayers (JsObj.set socketId player') room in
          let s1 :=
            emit (ToRoomExcept roomCode socketId
                    (PlayerDisconnected (playerNumber player') 30)) s in
          let '(s2, timer) :=
            setTimer now 30000 (ExpiryCb roomCode (playerNumber player')) s1 in
          let room2 :=
            withDisconnectTimers
              (fun m => <[playerNumber player' := timer]> m) room1 in
          startReconnectCountdown (putRoom roomCode room2 s2) roomCode
            (playerNumber player') 30 now
      end
  end.

(** The [disconnect] handler; [if (roomCode)] rejects the empty string too. *)
Definition disconnect (s : Server) (socketId : string) (now : Z) : Server :=
  match playerSockets s !! socketId with
  | Some roomCode =>
      if String.eqb roomCode "" then s
      else handlePlayerDisconnect s socketId roomCode now
  | None => s
  end.

(** One tick of the countdown interval [timer]. *)
Definition countdownTick (s : Server) (timer : nat) (roomCode : string)
    (pn timeLeft at_ : Z) : Server :=
  let timeLeft' := (timeLeft - 1)%Z in
  match gameRooms s !! roomCode with
  | None => clearTimer timer s
  | Some room =>
      let playerReconnected :=
        existsb (fun p => Z.eqb (playerNumber p) pn && connected p)
          (JsObj.values (players room)) in
      if playerReconnected then clearTimer timer s
      else if (0 <? timeLeft')%Z then
        withTimers
          (fun m => <[timer := mkTimer (at_ + 1000) (CountdownCb roomCode pn timeLeft')]> m)
          (emit (ToRoom roomCode (ReconnectCountdown pn timeLeft')) s)
      else clearTimer timer s
  end.

(** [handlePlayerTimeout(roomCode, playerNumber)]. *)
Definition handlePlayerTimeout (s : Server) (roomCode : string) (pn : Z) : Server :=
  match gameRooms s !! roomCode with
  | None => s
  | Some room =>
      let playersToRemove :=
        List.filter
          (fun socketId =>
             match JsObj.get socketId (players room) with
             | Some p => Z.eqb (playerNumber p) pn
             | None => false
             end)
          (JsObj.keys (players room)) in
      let room1 :=
        fold_left
          (fun r socketId =>
             withGameState (withSecrets (delete socketId))
               (withPlayers (JsObj.del socketId) r))
          playersToRemove room in
      let s1 :=
        withSockets
          (fun m => fold_left (fun m socketId => delete socketId m) playersToRemove m)
          s in
      let remainingPlayers := length (JsObj.keys (players room1)) in
      if remainingPlayers =? 0 then withRooms (delete roomCode) s1
      else
        let s2 :=
          if remainingPlayers =? 1 then
            match JsObj.values (players room1) with
            | remainingPlayer :: _ =>
                emit (ToRoom roomCode
                        (GameEnd (playerNumber remainingPlayer)
                           (nickname remainingPlayer)
                           "ชนะเนื่องจากอีกฝ่ายหลุดการเชื่อมต่อ"
                           (Some "opponent_timeout")
                           (history (gameState room1)))) s1
            | [] => s1
            end
          else s1 in
        putRoom roomCode (withDisconnectTimers (delete pn) room1) s2
  end.

(** ** Socket handlers *)

Definition newPlayer (socketId : string) (pn : Z) (name : string) (now : Z) : Player :=
  mkPlayer socketId pn name false true None now None.

(** The [createRoom] handler.  [codes] are the successive results of
    [generateRoomCode()]; the loop keeps the first one that is not taken, and
    the handler has not answered while none is. *)
Definition createRoom (s : Server) (socketId : string) (codes : list string) (now : Z)
  : Server * option Ack :=
  match List.find (fun c => negb (bool_decide (is_Some (gameRooms s !! c)))) codes with
  | None => (s, None)
  | Some roomCode =>
      let room :=
        mkRoom roomCode
          (JsObj.set socketId (newPlayer socketId 1 "ผู้เล่น 1" now) [])
          lobbyState now ∅ (nextRoom s) in
      let s1 :=
        mkServer (<[roomCode := room]> (gameRooms s))
          (<[socketId := roomCode]> (playerSockets s))
          (socketToPlayer s) (timers s) (nextTimer s) (S (nextRoom s))
          (emitted s) in
      let s2 := savePlayerSession socketId roomCode 1 now s1 in
      (emit (ToSocket socketId
               (RoomUpdate roomCode (createCleanPlayersObject (players room))
                  (gameState room))) s2,
       Some (AckSeat roomCode 1))
  end.

(** The [joinRoom] handler. *)
Definition joinRoom (s : Server) (socketId roomCode : string) (now : Z)
  : Server * Ack :=
  match gameRooms s !! roomCode with
  | None => (s, AckFail MsgRoomCodeNotFound)
  | Some room =>
      if 2 <=? length (JsObj.keys (players room)) then (s, AckFail MsgRoomFull)
      else if started (gameState room) then (s, AckFail MsgGameStarted)
      else
        let room1 :=
          withPlayers (JsObj.set socketId (newPlayer socketId 2 "ผู้เล่น 2" now)) room in
        let s1 := withSockets (fun m => <[socketId := roomCode]> m)
                    (putRoom roomCode room1 s) in
        let s2 := savePlayerSession socketId roomCode 2 now s1 in
        (emit (ToRoom roomCode
                 (RoomUpdate roomCode (createCleanPlayersObject (players room1))
                    (gameState room1))) s2,
         AckSeat roomCode 2)
  end.

(** The [submitSecret] handler.  When both players are ready it arms the
    500 ms start callback, which closes over the room object. *)
Definition submitSecret (s : Server) (socketId secret : string) (now : Z)
  : Server * Ack :=
  match playerSockets s !! socketId with
  | None => (s, AckFail MsgRoomNotFound)
  | Some roomCode =>
      match gameRooms s !! roomCode with
      | None => (s, AckFail MsgRoomNotFound)
      | Some room =>
          match JsObj.get socketId (players room) with
          | None => (s, AckFail MsgPlayerNotFound)
          | Some player =>
              if ready player then (s, AckOk MsgAlreadySubmitted)
              else if negb (validateNumber secret) then (s, AckFail MsgInvalidNumber)
              else
                let room1 :=
                  withPlayers (JsObj.set socketId (setReady true player))
                    (withGameState (withSecrets (fun m => <[socketId := secret]> m)) room) in
                let allPlayers := JsObj.values (players room1) in
                let allPlayersReady := forallb ready allPlayers in
                let playerCount := length allPlayers in
                let s1 := putRoom roomCode room1 s in
                let s2 :=
                  if allPlayersReady && (playerCount =? 2)
                  then fst (setTimer now 500 (StartCb (roomRef room1) roomCode) s1)
                  else s1 in
                (emit (ToRoom roomCode
                         (RoomUpdateBrief roomCode
                            (createCleanPlayersObject (players room1))
                            (started (gameState room1))
                            (currentPlayer (gameState room1)))) s2,
                 AckOk MsgSubmitted)
          end
      end
  end.

(** The body of the start callback, run on the room object [ref] it closed
    over.  A room object that is no longer in [gameRooms] can no longer be
    observed, so only the broadcast remains of the callback then. *)
Definition startGame (s : Server) (ref : nat) (roomCode : string) (now : Z) : Server :=
  let s1 :=
    match gameRooms s !! roomCode with
    | Some room =>
        if roomRef room =? ref then
          putRoom roomCode
            (withGameState
               (fun g =>
                  mkGameState true 1 (secrets g) [] (winner g) (winningGuess g)
                    (Some now))
               room) s
        else s
    | None => s
    end in
  emit (ToRoom roomCode (GameStart 1 now)) s1.

(** [opponentSecret] of [makeGuess]: the secret filed under the first key of
    [room.players] other than the caller's.  [find] gives [undefined] when
    there is no such key, and [secrets[undefined]] reads the property named
    "undefined". *)
Definition opponentSecret (room : Room) (socketId : string) : option string :=
  let opponentSocketId :=
    List.find (fun k => negb (String.eqb k socketId)) (JsObj.keys (players room)) in
  secrets (gameState room)
    !! (match opponentSocketId with Some k => k | None => "undefined" end).

(** The [makeGuess] handler. *)
Definition makeGuess (s : Server) (socketId guess : string) (now : Z)
  : Server * Ack :=
  match roomOf s socketId, playerSockets s !! socketId with
  | Some room, Some roomCode =>
      if negb (started (gameState room)) then (s, AckFail MsgGameNotStarted)
      else if negb (validateNumber guess) then (s, AckFail MsgInvalidNumber)
      else
        match JsObj.get socketId (players room) with
        | None => (s, AckFail MsgPlayerNotFound)
        | Some player =>
            if negb (Z.eqb (playerNumber player) (currentPlayer (gameState room)))
            then (s, AckFail MsgNotYourTurn)
            else
              match opponentSecret room socketId with
              | None | Some "" => (s, AckFail MsgOpponentSecretMissing)
              | Some secret =>
                  let result := checkGuess guess secret in
                  let isWin := correctPosition result =? 4 in
                  let historyItem :=
                    mkHistoryItem (playerNumber player) (nickname player) guess
                      result isWin now in
                  let g := gameState room in
                  let hist := history g ++ [historyItem] in
                  if isWin then
                    let g' :=
                      mkGameState (started g) (currentPlayer g) (secrets g) hist
                        (Value (playerNumber player)) (Value guess) (startedAt g) in
                    (emit (ToRoom roomCode
                             (GameEnd (playerNumber player) (nickname player) guess
                                None hist))
                       (putRoom roomCode (withGameState (fun _ => g') room) s),
                     AckGuess result isWin)
                  else
                    let current' := if Z.eqb (currentPlayer g) 1 then 2%Z else 1%Z in
                    let g' :=
                      mkGameState (started g) current' (secrets g) hist
                        (winner g) (winningGuess g) (startedAt g) in
                    (emit (ToRoom roomCode (TurnChange current' historyItem hist))
                       (putRoom roomCode (withGameState (fun _ => g') room) s),
                     AckGuess result isWin)
              end
        end
  | _, _ => (s, AckFail MsgGameNotStarted)
  end.

(** The [resetGame] handler. *)
Definition resetGame (s : Server) (socketId : string) : Server :=
  match roomOf s socketId, playerSockets s !! socketId with
  | Some room, Some roomCode =>
      let room1 :=
        withPlayers (JsObj.mapValues (setReady false))
          (withGameState (fun _ => resetState) room) in
      let s1 := clearTimers (disconnectTimers room1) s in
      let room2 := withDisconnectTimers (fun _ => ∅) room1 in
      emit (ToRoom roomCode
              (GameReset (createCleanPlayersObject (players room2))
                 (gameState room2)))
        (putRoom roomCode room2 s1)
  | _, _ => s
  end.

(** The [leaveRoom] handler. *)
Definition leaveRoom (s : Server) (socketId : string) : Server :=
  match playerSockets s !! socketId with
  | None => s
  | Some roomCode =>
      if String.eqb roomCode "" then s
      else
        let s' :=
          match gameRooms s !! roomCode with
          | None => s
          | Some room =>
              match JsObj.get socketId (players room) with
              | None => s
              | Some player =>
                  let room1 :=
                    withGameState (withSecrets (delete socketId))
                      (withPlayers (JsObj.del socketId) room) in
                  let '(room2, s1) :=
                    match disconnectTimers room1 !! playerNumber player with
                    | Some t =>
                        (withDisconnectTimers (delete (playerNumber player)) room1,
                         clearTimer t s)
                    | None => (room1, s)
                    end in
                  let room3 :=
                    if negb (started (gameState room2)) then
                      withPlayers (JsObj.mapValues (setReady false))
                        (withGameState (fun _ => lobbyState) room2)
                    else room2 in
                  if length (JsObj.keys (players room3)) =? 0 then
                    withRooms (delete roomCode)
                      (clearTimers (disconnectTimers room3) s1)
                  else
                    emit (ToRoom roomCode
                            (RoomUpdate roomCode
                               (createCleanPlayersObject (players room3))
                               (gameState room3)))
                      (emit (ToRoom roomCode (PlayerLeft (playerNumber player)))
                         (putRoom roomCode room3 s1))
              end
          end in
        withSessions (delete socketId) (withSockets (delete socketId) s')
  end.

(** The [ping] handler. *)
Definition ping (s : Server) (socketId : string) (now : Z) : Server * Ack :=
  match playerSockets s !! socketId with
  | Some roomCode =>
      if String.eqb roomCode "" then (s, AckPong)
      else
        match gameRooms s !! roomCode with
        | Some room =>
            match JsObj.get socketId (players room) with
            | Some p =>
                (putRoom roomCode
                   (withPlayers (JsObj.set socketId (setLastSeen now p)) room) s,
                 AckPong)
            | None => (s, AckPong)
            end
        | None => (s, AckPong)
        end
  | None => (s, AckPong)
  end.

(** ** Periodic sweep *)

Definition shouldDelete (now : Z) (room : Room) : bool :=
  let roomAge := (now - createdAt room)%Z in
  let hasActivePlayers := existsb connected (JsObj.values (players room)) in
  let playerCount := length (JsObj.keys (players room)) in
  ((4 * 60 * 60 * 1000 <? roomAge)%Z && (playerCount =? 0))
  || (negb hasActivePlayers && (playerCount =? 0))
  || (8 * 60 * 60 * 1000 <? roomAge)%Z.

(** The body of the ten-minute interval: one pass over [gameRooms]. *)
Definition sweep (s : Server) (now : Z) : Server :=
  map_fold
    (fun roomCode room acc =>
       if shouldDelete now room
       then withRooms (delete roomCode) (clearTimers (disconnectTimers room) acc)
       else acc)
    s (gameRooms s).

(** ** Timers firing and runs of the server *)

(** The timer [timer] comes due at time [now].  A timeout is spent when it
    fires; an interval stays until it clears itself. *)
Definition fireTimer (s : Server) (timer : nat) (now : Z) : Server :=
  match timers s !! timer with
  | None => s
  | Some t =>
      if (now <? due t)%Z then s
      else
        match callback t with
        | ExpiryCb roomCode pn =>
            handlePlayerTimeout (clearTimer timer s) roomCode pn
        | StartCb ref roomCode =>
            startGame (clearTimer timer s) ref roomCode now
        | CountdownCb roomCode pn timeLeft =>
            countdownTick s timer roomCode pn timeLeft (due t)
        end
  end.

(** What can happen to the server. *)
Inductive Action :=
| ACreateRoom (socketId : string) (codes : list string) (now : Z)
| AJoinRoom (socketId roomCode : string) (now : Z)
| AAttemptReconnect (socketId roomCode : string) (pn now : Z)
| ASubmitSecret (socketId secret : string) (now : Z)
| AMakeGuess (socketId guess : string) (now : Z)
| AResetGame (socketId : string)
| ALeaveRoom (socketId : string)
| APing (socketId : string) (now : Z)
| ADisconnect (socketId : string) (now : Z)
| AFireTimer (timer : nat) (now : Z)
| ASweep (now : Z).

Definition step (s : Server) (a : Action) : Server :=
  match a with
  | ACreateRoom socketId codes now => fst (createRoom s socketId codes now)
  | AJoinRoom socketId roomCode now => fst (joinRoom s socketId roomCode now)
  | AAttemptReconnect socketId roomCode pn now =>
      fst (attemptReconnect s socketId roomCode pn now)
  | ASubmitSecret socketId secret now => fst (submitSecret s socketId secret now)
  | AMakeGuess socketId guess now => fst (makeGuess s socketId guess now)
  | AResetGame socketId => resetGame s socketId
  | ALeaveRoom socketId => leaveRoom s socketId
  | APing socketId now => fst (ping s socketId now)
  | ADisconnect socketId now => disconnect s socketId now
  | AFireTimer timer now => fireTimer s timer now
  | ASweep now => sweep s now
  end.

Definition run (s : Server) (trace : list Action) : Server :=
  fold_left step trace s.

(** A state the server can be in: the result of a run from the empty server. *)
Definition reachable (s : Server) : Prop :=
  exists trace, run initial trace = s.

(** ** The guess result as the specification words it *)

Definition digitValues : list ascii :=
  ["0"; "1"; "2"; "3"; "4"; "5"; "6"; "7"; "8"; "9"]%char.

(** A string of four decimal digits. *)
Definition fourDigits (x : string) : Prop :=
  length (list_ascii_of_string x) = 4
  /\ Forall (fun c => isDigit c = true) (list_ascii_of_string x).

Definition occurrences (d : ascii) (l : list ascii) : nat :=
  length (List.filter (Ascii.eqb d) l).

(** The number of indices [i] with [guess[i] == secret[i]]. *)
Definition positionMatches (guess secret : string) : nat :=
  length
    (List.filter
       (fun i =>
          bool_decide (nth_error (list_ascii_of_string guess) i
                       = nth_error (list_ascii_of_string secret) i))
       (seq 0 4)).

(** The sum over each digit value of the smaller number of occurrences. *)
Definition valueMatches (guess secret : string) : nat :=
  sum_list_with
    (fun d =>
       Nat.min (occurrences d (list_ascii_of_string guess))
         (occurrences d (list_ascii_of_string secret)))
    digitValues.

(** Matches of two digit lists read side by side. *)
Fixpoint alignedMatches (g s : list ascii) : nat :=
  match g, s with
  | x :: g', y :: s' => (if Ascii.eqb x y then 1 else 0) + alignedMatches g' s'
  | _, _ => 0
  end.

(** The count recorded for [d], or 0. *)
Definition countOf (count : list (ascii * nat)) (d : ascii) : nat :=
  match countGet d count with Some n => n | None => 0 end.

(** ** Runs of the server used as examples

    All times are milliseconds.  Ticks of the countdown interval are left out
    of the runs: a tick writes to the outbox and to its own timer entry
    only. *)

Definition emptyRoom : Room := mkRoom "" [] lobbyState 0 ∅ 0.

Definition roomAt (s : Server) (roomCode : string) : Room :=
  default emptyRoom (gameRooms s !! roomCode).

(** A creates the room. *)
Definition soloTrace : list Action :=
  [ACreateRoom "A" ["ROOM01"] 0].

(** B joins. *)
Definition lobbyTrace : list Action :=
  soloTrace ++ [AJoinRoom "B" "ROOM01" 1000].

(** Both submit their secrets; the second submission arms start timer 0. *)
Definition readyTrace : list Action :=
  lobbyTrace ++ [ASubmitSecret "A" "1234" 2000; ASubmitSecret "B" "5678" 3000].

(** The start timer fires after its 500 ms. *)
Definition startedTrace : list Action :=
  readyTrace ++ [AFireTimer 0 3500].

(** Each player has guessed once, and B loses its connection; it is the
    turn of seat 1. *)
Definition graceTrace : list Action :=
  startedTrace
  ++ [AMakeGuess "A" "5612" 4000; AMakeGuess "B" "1243" 5000;
      ADisconnect "B" 10000].

(** The player object of A in the runs above, and the two guesses of
    [graceTrace] as they stand in the history. *)
Definition playerA : Player :=
  mkPlayer "A" 1 "ผู้เล่น 1" true true None 0 None.

Definition twoGuesses : list HistoryItem :=
  [mkHistoryItem 1 "ผู้เล่น 1" "5612" (mkGuessResult 2 2) false 4000;
   mkHistoryItem 2 "ผู้เล่น 2" "1243" (mkGuessResult 2 4) false 5000].

(** B leaves within the 500 ms between both being ready and the start. *)
Definition leftBeforeStartTrace : list Action :=
  readyTrace ++ [ALeaveRoom "B"; AFireTimer 0 3500].

(** B drops (expiry timer 0), A leaves, E takes the free place and gets seat
    number 2 as well, E drops (expiry timer 2 replaces timer 0 in the room's
    table), and the seat reconnects on socket F, which clears timer 2. *)
Definition staleTimerTrace : list Action :=
  lobbyTrace
  ++ [ADisconnect "B" 2000; ALeaveRoom "A"; AJoinRoom "E" "ROOM01" 4000;
      ADisconnect "E" 5000; AAttemptReconnect "F" "ROOM01" 2 6000].

Definition eightHours : Z := 8 * 60 * 60 * 1000.

(** ** Room codes *)

(** The alphabet of [generateRoomCode]. *)
Definition roomCodeChars : string := "ABCDEFGHIJKLMNOPQRSTUVWXYZ0123456789".

(** [chars.charAt(i)]: the empty string when [i] is out of range. *)
Definition charAt (chars : string) (i : nat) : string :=
  match String.get i chars with
  | Some c => String c EmptyString
  | None => EmptyString
  end.

(** [generateRoomCode()].  [draws i] is the value of
    [Math.floor(Math.random() * chars.length)] in round [i] of the loop;
    [Math.random()] is below 1, so a draw is below 36. *)
Definition generateRoomCode (draws : nat -> nat) : string :=
  fold_left (fun result i => String.append result (charAt roomCodeChars (draws i)))
    (seq 0 6) EmptyString.

(** ** Well-formed rooms *)

(** A player is filed under its own id and sits on seat 1 or 2. *)
Definition playerOk (kp : string * Player) : Prop :=
  playerId (snd kp) = fst kp
  /\ (playerNumber (snd kp) = 1%Z \/ playerNumber (snd kp) = 2%Z).

(** A room as the handlers keep it: filed under its own code, at most two
    players under distinct keys, and only validated secrets. *)
Definition roomOk (roomCode : string) (room : Room) : Prop :=
  code room = roomCode
  /\ length (players room) <= 2
  /\ NoDup (JsObj.keys (players room))
  /\ Forall playerOk (players room)
  /\ (forall k secret,
         secrets (gameState room) !! k = Some secret ->
         validateNumber secret = true).

Definition serverOk (s : Server) : Prop :=
  forall roomCode room, gameRooms s !! roomCode = Some room -> roomOk roomCode room.

(** [n] successive firings of a timer, each at the time it is due. *)
Fixpoint fireRepeatedly (n : nat) (s : Server) (timer : nat) : Server :=
  match n with
  | 0 => s
  | S n' =>
      match timers s !! timer with
      | Some t => fireRepeatedly n' (fireTimer s timer (due t)) timer
      | None => s
      end
  end.

(** * Properties *)

(** ** GuessEngine *)

Section Sums.

Variable D : list ascii.

Lemma sum_bump (f : ascii -> nat) (d : ascii) (a : nat) :
  NoDup D -> d ∈ D -> f d = 0 ->
  sum_list_with (fun x => if Ascii.eqb d x then a else f x) D
  = a + sum_list_with f D.
Proof.
  induction D as [|x l IH]; intros Hnd Hin Hf.
  - inversion Hin.
  - apply NoDup_cons in Hnd as [Hx Hl]. simpl.
    destruct (Ascii.eqb d x) eqn:E.
    + apply Ascii.eqb_eq in E. subst x.
      rewrite Hf.
      assert (Hsame : sum_list_with (fun x => if Ascii.eqb d x then a else f x) l
                      = sum_list_with f l).
      { clear IH Hl Hin. induction l as [|y l IHl]; simpl; [done|].
        destruct (Ascii.eqb d y) eqn:E'.
        - apply Ascii.eqb_eq in E'. subst y. exfalso. apply Hx. left.
        - rewrite IHl; [done|]. intros H. apply Hx. by right. }
      rewrite Hsame. lia.
    + apply Ascii.eqb_neq in E.
      apply elem_of_cons in Hin as [->|Hin]; [done|].
      rewrite IH by done. lia.
Qed.

Lemma sum_pointwise_le (f g : ascii -> nat) :
  (forall x, f x <= g x) -> sum_list_with f D <= sum_list_with g D.
Proof.
  intros H. induction D as [|x l IH]; simpl; [lia|].
  specialize (H x). lia.
Qed.

Lemma sum_one_more (f g : ascii -> nat) (d : ascii) :
  d ∈ D -> (forall x, f x <= g x) -> f d < g d ->
  S (sum_list_with f D) <= sum_list_with g D.
Proof.
  intros Hin Hle Hlt. induction D as [|x l IH]; [inversion Hin|].
  simpl. apply elem_of_cons in Hin as [<-|Hin].
  - assert (sum_list_with f l <= sum_list_with g l).
    { clear IH. induction l as [|y l IHl]; simpl; [lia|].
      specialize (Hle y). lia. }
    lia.
  - specialize (IH Hin). specialize (Hle x). lia.
Qed.

End Sums.

Lemma digitValues_NoDup : NoDup digitValues.
Proof. apply (bool_decide_unpack _). vm_compute. exact I. Qed.

Lemma isDigit_digitValues (c : ascii) : isDigit c = true -> c ∈ digitValues.
Proof.
  intros H. rewrite <- (ascii_nat_embedding c).
  unfold isDigit in H. apply andb_true_iff in H as [H1 H2].
  apply Nat.leb_le in H1, H2.
  remember (nat_of_ascii c) as n eqn:En. clear En c.
  do 48 (destruct n as [|n]; [lia|]).
  do 10 (destruct n as [|n]; [vm_compute; set_solver|]).
  lia.
Qed.

Lemma sum_list_with_agree (f g : ascii -> nat) (l : list ascii) :
  (forall x, f x = g x) -> sum_list_with f l = sum_list_with g l.
Proof.
  intros H. apply Nat.le_antisymm; apply sum_pointwise_le; intros x;
    rewrite H; lia.
Qed.

Lemma occurrences_cons (d x : ascii) (l : list ascii) :
  occurrences d (x :: l) = (if Ascii.eqb d x then 1 else 0) + occurrences d l.
Proof. unfold occurrences. simpl. by destruct (Ascii.eqb d x). Qed.

Lemma countOf_cons (d x : ascii) (n : nat) (c : list (ascii * nat)) :
  countOf ((d, n) :: c) x = if Ascii.eqb d x then n else countOf c x.
Proof. unfold countOf. simpl. by destruct (Ascii.eqb d x). Qed.

Lemma countOf_countIncr (d x : ascii) (c : list (ascii * nat)) :
  countOf (countIncr d c) x = countOf c x + (if Ascii.eqb d x then 1 else 0).
Proof.
  induction c as [|[d' n] c IH]; simpl.
  - rewrite countOf_cons. unfold countOf. simpl. by destruct (Ascii.eqb d x).
  - destruct (Ascii.eqb d' d) eqn:E1.
    + apply Ascii.eqb_eq in E1. subst d'. rewrite !countOf_cons.
      destruct (Ascii.eqb d x); lia.
    + rewrite !countOf_cons. destruct (Ascii.eqb d' x) eqn:E2.
      * apply Ascii.eqb_eq in E2. subst x.
        rewrite Ascii.eqb_sym, E1. lia.
      * exact IH.
Qed.

Lemma countOf_countAll (l : list ascii) (x : ascii) :
  countOf (countAll l) x = occurrences x l.
Proof.
  unfold countAll.
  enough (H : forall c, countOf (fold_left (fun count d => countIncr d count) l c) x
                        = countOf c x + occurrences x l) by apply (H []).
  induction l as [|d l IH]; intros c; simpl.
  - unfold occurrences. simpl. lia.
  - rewrite IH, countOf_countIncr, occurrences_cons, (Ascii.eqb_sym x d). lia.
Qed.

Lemma countIncr_keys (d x : ascii) (c : list (ascii * nat)) :
  x ∈ (countIncr d c).*1 <-> x = d \/ x ∈ c.*1.
Proof.
  induction c as [|[d' n] c IH]; simpl.
  - rewrite elem_of_cons. tauto.
  - destruct (Ascii.eqb d' d) eqn:E.
    + apply Ascii.eqb_eq in E. subst d'. simpl. rewrite !elem_of_cons. tauto.
    + simpl. rewrite !elem_of_cons, IH. tauto.
Qed.

Lemma countIncr_NoDup (d : ascii) (c : list (ascii * nat)) :
  NoDup c.*1 -> NoDup (countIncr d c).*1.
Proof.
  induction c as [|[d' n] c IH]; simpl; intros Hnd.
  - apply NoDup_singleton.
  - apply NoDup_cons in Hnd as [Hd' Hc].
    destruct (Ascii.eqb d' d) eqn:E; simpl.
    + by apply NoDup_cons.
    + apply Ascii.eqb_neq in E. apply NoDup_cons. split; [|by apply IH].
      rewrite countIncr_keys. intros [->|?]; done.
Qed.

Lemma countAll_keys (l : list ascii) :
  NoDup (countAll l).*1 /\ forall x, x ∈ (countAll l).*1 -> x ∈ l.
Proof.
  unfold countAll.
  enough (H : forall c, NoDup c.*1 ->
            NoDup (fold_left (fun count d => countIncr d count) l c).*1
            /\ forall x, x ∈ (fold_left (fun count d => countIncr d count) l c).*1
                         -> x ∈ l \/ x ∈ c.*1).
  { destruct (H [] (NoDup_nil_2 : NoDup ([] : list (ascii * nat)).*1)) as [H1 H2].
    split; [done|]. intros x Hx. destruct (H2 x Hx) as [?|Hin]; [done|].
    inversion Hin. }
  induction l as [|d l IH]; intros c Hc; simpl.
  - split; [done|]. by right.
  - destruct (IH (countIncr d c) (countIncr_NoDup d c Hc)) as [H1 H2].
    split; [done|]. intros x Hx. apply H2 in Hx as [?|Hx].
    + left. by right.
    + apply countIncr_keys in Hx as [->|?]; [left; left|by right].
Qed.

Lemma countOf_absent (d : ascii) (c : list (ascii * nat)) :
  d ∉ c.*1 -> countOf c d = 0.
Proof.
  induction c as [|[d' n] c IH]; intros H; [done|].
  rewrite countOf_cons. destruct (Ascii.eqb d' d) eqn:E.
  - apply Ascii.eqb_eq in E. subst d'. exfalso. apply H. left.
  - apply IH. intros Hin. apply H. by right.
Qed.

(** The loop over the keys of a counting object adds up the sum over all
    digit values. *)
Lemma count_loop_sum (h : ascii -> nat) (c : list (ascii * nat)) (a : nat) :
  NoDup c.*1 -> (forall x, x ∈ c.*1 -> x ∈ digitValues) ->
  fold_left (fun acc dg => acc + Nat.min (snd dg) (h (fst dg))) c a
  = a + sum_list_with (fun d => Nat.min (countOf c d) (h d)) digitValues.
Proof.
  revert a. induction c as [|[d n] c IH]; intros a Hnd Hin; cbn [fold_left fst snd].
  - rewrite (sum_list_with_agree _ (fun _ => 0)); [|done].
    assert (sum_list_with (fun _ : ascii => 0) digitValues = 0) as -> by done.
    lia.
  - apply NoDup_cons in Hnd as [Hd Hc].
    rewrite IH; [|done|intros x Hx; apply Hin; by right].
    rewrite (sum_list_with_agree
               (fun x => Nat.min (countOf ((d, n) :: c) x) (h x))
               (fun x => if Ascii.eqb d x then Nat.min n (h d)
                         else Nat.min (countOf c x) (h x))).
    + rewrite (sum_bump digitValues (fun x => Nat.min (countOf c x) (h x))).
      * lia.
      * apply digitValues_NoDup.
      * apply Hin. left.
      * by rewrite countOf_absent.
    + intros x. rewrite countOf_cons. destruct (Ascii.eqb d x) eqn:E; [|done].
      apply Ascii.eqb_eq in E. by subst x.
Qed.

Lemma fold_left_agree {A B} (f g : A -> B -> A) (l : list B) (a : A) :
  (forall x y, f x y = g x y) -> fold_left f l a = fold_left g l a.
Proof.
  intros H. revert a. induction l as [|y l IH]; intros a; simpl; [done|].
  by rewrite H, IH.
Qed.

Lemma correctNumber_valueMatches (guess secret : string) :
  Forall (fun c => isDigit c = true) (list_ascii_of_string guess) ->
  correctNumber (checkGuess guess secret) = valueMatches guess secret.
Proof.
  intros Hg. unfold checkGuess, valueMatches. cbn [correctNumber].
  set (g := list_ascii_of_string guess). set (s := list_ascii_of_string secret).
  destruct (countAll_keys g) as [Hnd Hkeys].
  rewrite (fold_left_agree _
             (fun acc dg => acc + Nat.min (snd dg) (countOf (countAll s) (fst dg)))).
  - rewrite count_loop_sum; [|done|].
    + rewrite Nat.add_0_l. apply sum_list_with_agree. intros x.
      by rewrite !countOf_countAll.
    + intros x Hx. apply isDigit_digitValues.
      rewrite Forall_forall in Hg. apply Hg, Hkeys, Hx.
  - intros acc [d n]. unfold countOf. simpl.
    destruct (countGet d (countAll s)) as [[|m]|]; lia.
Qed.

Lemma aligned_le_values (g s : list ascii) :
  Forall (fun c => c ∈ digitValues) g ->
  alignedMatches g s
  <= sum_list_with (fun d => Nat.min (occurrences d g) (occurrences d s)) digitValues.
Proof.
  revert s. induction g as [|x g IH]; intros s Hg; cbn [alignedMatches]; [lia|].
  destruct s as [|y s]; [lia|].
  apply Forall_cons in Hg as [Hx Hg].
  specialize (IH s Hg).
  destruct (Ascii.eqb x y) eqn:E.
  - apply Ascii.eqb_eq in E. subst y.
    etrans; [|apply (sum_one_more digitValues
                       (fun d => Nat.min (occurrences d g) (occurrences d s))
                       _ x Hx)].
    + lia.
    + intros d. rewrite !occurrences_cons. lia.
    + rewrite !occurrences_cons, Ascii.eqb_refl. lia.
  - etrans; [exact IH|]. apply sum_pointwise_le.
    intros d. rewrite !occurrences_cons. lia.
Qed.

Lemma correctPosition_aligned (guess secret : string) :
  length (list_ascii_of_string guess) = 4 ->
  length (list_ascii_of_string secret) = 4 ->
  correctPosition (checkGuess guess secret)
  = alignedMatches (list_ascii_of_string guess) (list_ascii_of_string secret)
  /\ positionMatches guess secret
     = alignedMatches (list_ascii_of_string guess) (list_ascii_of_string secret).
Proof.
  intros Hg Hs. unfold checkGuess, positionMatches. simpl.
  destruct (list_ascii_of_string guess) as [|a [|b [|c [|d [|? ?]]]]]; try discriminate.
  destruct (list_ascii_of_string secret) as [|e [|f [|i [|j [|? ?]]]]]; try discriminate.
  simpl.
  assert (Hdec : forall x y : ascii,
             bool_decide (Some x = Some y) = Ascii.eqb x y).
  { intros x y. destruct (Ascii.eqb_spec x y) as [->|Hne].
    - by rewrite bool_decide_true.
    - rewrite bool_decide_false; [done|]. congruence. }
  rewrite !Hdec.
  destruct (Ascii.eqb a e), (Ascii.eqb b f), (Ascii.eqb c i), (Ascii.eqb d j);
    done.
Qed.

(** C7.  On four-digit strings [checkGuess] returns, as [correctPosition],
    the number of indices at which guess and secret agree and, as
    [correctNumber], the sum over the digit values of the smaller number of
    occurrences; [correctNumber] is at least [correctPosition]; and
    [checkGuess("1234","4321")] is [{0, 4}].  [checkGuess] is a function of
    its two arguments alone. *)
Theorem C7_checkGuess_counts (guess secret : string) :
  fourDigits guess -> fourDigits secret ->
  correctPosition (checkGuess guess secret) = positionMatches guess secret
  /\ correctNumber (checkGuess guess secret) = valueMatches guess secret
  /\ correctPosition (checkGuess guess secret)
     <= correctNumber (checkGuess guess secret)
  /\ checkGuess "1234" "4321" = mkGuessResult 0 4.
Proof.
  intros [Hg4 Hgd] [Hs4 Hsd].
  destruct (correctPosition_aligned guess secret Hg4 Hs4) as [Hcp Hpm].
  pose proof (correctNumber_valueMatches guess secret Hgd) as Hcn.
  split; [congruence|]. split; [exact Hcn|]. split; [|reflexivity].
  rewrite Hcp, Hcn. apply aligned_le_values.
  eapply Forall_impl; [exact Hgd|]. apply isDigit_digitValues.
Qed.

Lemma C7_checkGuess_counts_witness :
  correctPosition (checkGuess "1256" "1234") = positionMatches "1256" "1234"
  /\ correctNumber (checkGuess "1256" "1234") = valueMatches "1256" "1234"
  /\ correctPosition (checkGuess "1256" "1234")
     <= correctNumber (checkGuess "1256" "1234")
  /\ checkGuess "1234" "4321" = mkGuessResult 0 4.
Proof.
  apply (C7_checkGuess_counts "1256" "1234");
    (split; [reflexivity | repeat constructor]).
Defined.

(** ** Objects as association lists *)

Lemma get_of_entry {V} (o : JsObj.t V) (k : string) (v : V) :
  NoDup (JsObj.keys o) -> In (k, v) o -> JsObj.get k o = Some v.
Proof.
  induction o as [|[k' v'] o IH]; intros Hnd Hin; [done|].
  simpl in *. apply NoDup_cons in Hnd as [Hk' Ho].
  destruct Hin as [Heq|Hin].
  - inversion Heq; subst. by rewrite String.eqb_refl.
  - destruct (String.eqb k' k) eqn:E.
    + apply String.eqb_eq in E. subst k'. exfalso. apply Hk'.
      apply list_elem_of_In. change k with (fst (k, v)). by apply in_map.
    + by apply IH.
Qed.

Lemma filter_twice {A} (f g : A -> bool) (l : list A) :
  List.filter g (List.filter f l) = List.filter (fun x => f x && g x) l.
Proof.
  induction l as [|x l IH]; [done|]. simpl.
  destruct (f x); simpl; [destruct (g x)|]; by rewrite IH.
Qed.

Lemma fold_del {V} (R : list string) (o : JsObj.t V) :
  fold_left (fun ps k => JsObj.del k ps) R o
  = List.filter (fun kv => negb (existsb (String.eqb (fst kv)) R)) o.
Proof.
  revert o. induction R as [|k R IH]; intros o; simpl.
  - induction o as [|x o IHo]; [done|]. simpl. by rewrite <- IHo.
  - rewrite IH. unfold JsObj.del. rewrite filter_twice.
    apply filter_ext. intros kv. by rewrite negb_orb.
Qed.

(** Deleting the keys that [handlePlayerTimeout] collects leaves the entries
    of the other seats, in their order. *)
Lemma remove_seat_players (o : JsObj.t Player) (pn : Z) :
  NoDup (JsObj.keys o) ->
  fold_left (fun ps k => JsObj.del k ps)
    (List.filter
       (fun socketId =>
          match JsObj.get socketId o with
          | Some p => Z.eqb (playerNumber p) pn
          | None => false
          end)
       (JsObj.keys o)) o
  = List.filter (fun kv => negb (Z.eqb (playerNumber (snd kv)) pn)) o.
Proof.
  intros Hnd. rewrite fold_del. apply filter_ext_in. intros [k p] Hin.
  f_equal. simpl.
  pose proof (get_of_entry o k p Hnd Hin) as Hget.
  destruct (Z.eqb (playerNumber p) pn) eqn:E.
  - apply existsb_exists. exists k. split; [|apply String.eqb_refl].
    apply filter_In. split.
    + change k with (fst (k, p)). by apply in_map.
    + by rewrite Hget.
  - apply not_true_is_false. intros H.
    apply existsb_exists in H as (k' & Hk' & Heq).
    apply String.eqb_eq in Heq. subst k'.
    apply filter_In in Hk' as [_ Hk']. rewrite Hget in Hk'. congruence.
Qed.

Lemma remove_seat_room (R : list string) (room : Room) :
  let room1 :=
    fold_left
      (fun r socketId =>
         withGameState (withSecrets (delete socketId))
           (withPlayers (JsObj.del socketId) r))
      R room in
  players room1 = fold_left (fun ps k => JsObj.del k ps) R (players room)
  /\ history (gameState room1) = history (gameState room)
  /\ started (gameState room1) = started (gameState room)
  /\ code room1 = code room
  /\ disconnectTimers room1 = disconnectTimers room.
Proof.
  revert room. induction R as [|k R IH]; intros room; simpl; [done|].
  destruct (IH (withGameState (withSecrets (delete k))
                  (withPlayers (JsObj.del k) room))) as (H1 & H2 & H3 & H4 & H5).
  by rewrite H1, H2, H3, H4, H5.
Qed.

(** ** Expiry *)

(** C5.  When the expiry fires for seat [pn] and exactly one seat is left in
    the room once the players of seat [pn] are removed (connected or not, so
    in particular when it is connected), a [gameEnd] with reason
    "opponent_timeout", that seat as winner and the accumulated history is
    broadcast to the room; when no seat is left, the room is deleted.
    ([room.players] is an object: its keys are distinct.) *)
Theorem C5_timeout_forfeit (s : Server) (roomCode : string) (pn : Z) (room : Room) :
  gameRooms s !! roomCode = Some room ->
  NoDup (JsObj.keys (players room)) ->
  let remaining :=
    List.filter (fun kv => negb (Z.eqb (playerNumber (snd kv)) pn)) (players room) in
  let s' := handlePlayerTimeout s roomCode pn in
  (forall k p,
      remaining = [(k, p)] ->
      emitted s'
      = emitted s
          ++ [ToRoom roomCode
                (GameEnd (playerNumber p) (nickname p)
                   "ชนะเนื่องจากอีกฝ่ายหลุดการเชื่อมต่อ"
                   (Some "opponent_timeout") (history (gameState room)))]
      /\ exists room', gameRooms s' !! roomCode = Some room'
                       /\ players room' = [(k, p)])
  /\ (remaining = [] -> gameRooms s' !! roomCode = None).
Proof.
  intros Hroom Hnd remaining s'. subst s'. unfold handlePlayerTimeout.
  rewrite Hroom.
  match goal with |- context [fold_left ?f ?R room] =>
    destruct (remove_seat_room R room) as (Hps & Hhist & _ & _ & _);
    set (room1 := fold_left f R room) in *
  end.
  rewrite (remove_seat_players _ pn Hnd) in Hps. fold remaining in Hps.
  unfold JsObj.keys, JsObj.values. rewrite Hps. split.
  - intros k p Hrem. rewrite Hrem. simpl. rewrite Hhist. split; [done|].
    eexists. split; [apply lookup_insert_eq|]. simpl. by rewrite Hps, Hrem.
  - intros Hrem. rewrite Hrem. simpl. apply lookup_delete_eq.
Qed.

Lemma C5_timeout_forfeit_witness :
  let s := run initial graceTrace in
  let s' := handlePlayerTimeout s "ROOM01" 2 in
  emitted s'
  = emitted s
      ++ [ToRoom "ROOM01"
            (GameEnd 1 "ผู้เล่น 1" "ชนะเนื่องจากอีกฝ่ายหลุดการเชื่อมต่อ"
               (Some "opponent_timeout") twoGuesses)]
  /\ exists room', gameRooms s' !! "ROOM01" = Some room'
                   /\ players room' = [("A", playerA)].
Proof.
  assert (Hroom : gameRooms (run initial graceTrace) !! "ROOM01"
                  = Some (roomAt (run initial graceTrace) "ROOM01"))
    by (vm_compute; reflexivity).
  assert (Hnd : NoDup (JsObj.keys (players (roomAt (run initial graceTrace) "ROOM01"))))
    by (apply (bool_decide_unpack _); vm_compute; exact I).
  assert (Hrem : List.filter (fun kv => negb (Z.eqb (playerNumber (snd kv)) 2))
                   (players (roomAt (run initial graceTrace) "ROOM01"))
                 = [("A", playerA)])
    by (vm_compute; reflexivity).
  exact (proj1 (C5_timeout_forfeit (run initial graceTrace) "ROOM01" 2
                  (roomAt (run initial graceTrace) "ROOM01") Hroom Hnd)
           "A" playerA Hrem).
Defined.

(** ** Timers *)

Lemma clearTimers_spec (table : gmap Z nat) (s : Server) :
  gameRooms (clearTimers table s) = gameRooms s
  /\ playerSockets (clearTimers table s) = playerSockets s
  /\ socketToPlayer (clearTimers table s) = socketToPlayer s
  /\ emitted (clearTimers table s) = emitted s
  /\ (forall pn t, table !! pn = Some t -> timers (clearTimers table s) !! t = None)
  /\ (forall t, (forall pn, table !! pn <> Some t) ->
                timers (clearTimers table s) !! t = timers s !! t).
Proof.
  unfold clearTimers.
  apply (map_fold_weak_ind
           (fun acc (m : gmap Z nat) =>
              gameRooms acc = gameRooms s
              /\ playerSockets acc = playerSockets s
              /\ socketToPlayer acc = socketToPlayer s
              /\ emitted acc = emitted s
              /\ (forall pn t, m !! pn = Some t -> timers acc !! t = None)
              /\ (forall t, (forall pn, m !! pn <> Some t) ->
                            timers acc !! t = timers s !! t))).
  - repeat split; done.
  - intros i x m acc Hi (H1 & H2 & H3 & H4 & H5 & H6). simpl.
    repeat split; try done.
    + intros pn t Hpn. rewrite lookup_delete.
      destruct (decide (x = t)) as [|Hne]; [done|].
      rewrite lookup_insert in Hpn. destruct (decide (i = pn)) as [|Hne'].
      * congruence.
      * by apply (H5 pn).
    + intros t Ht. rewrite lookup_delete.
      destruct (decide (x = t)) as [->|Hne].
      * exfalso. apply (Ht i). apply lookup_insert_eq.
      * apply H6. intros pn Hpn. apply (Ht pn).
        rewrite lookup_insert_ne; [done|]. intros ->. congruence.
Qed.

(** ** Sweep *)

Lemma sweep_lookup (s : Server) (now : Z) (roomCode : string) :
  gameRooms (sweep s now) !! roomCode
  = match gameRooms s !! roomCode with
    | Some room => if shouldDelete now room then None else Some room
    | None => None
    end.
Proof.
  unfold sweep.
  assert (H : forall c,
             gameRooms
               (map_fold
                  (fun roomCode room acc =>
                     if shouldDelete now room
                     then withRooms (delete roomCode)
                            (clearTimers (disconnectTimers room) acc)
                     else acc) s (gameRooms s)) !! c
             = match gameRooms s !! c with
               | Some room =>
                   if shouldDelete now room then None else gameRooms s !! c
               | None => gameRooms s !! c
               end).
  { apply (map_fold_weak_ind
             (fun acc (m : gmap string Room) =>
                forall c, gameRooms acc !! c
                          = match m !! c with
                            | Some room =>
                                if shouldDelete now room then None
                                else gameRooms s !! c
                            | None => gameRooms s !! c
                            end)).
    - intros c. by rewrite lookup_empty.
    - intros i x m acc Hi IH c. rewrite lookup_insert.
      destruct (decide (i = c)) as [->|Hne].
      + destruct (shouldDelete now x).
        * simpl. apply lookup_delete_eq.
        * rewrite IH, Hi. done.
      + rewrite <- IH. destruct (shouldDelete now x); [|done].
        simpl. rewrite lookup_delete_ne by done.
        by destruct (clearTimers_spec (disconnectTimers x) acc) as [-> _]. }
  rewrite H. destruct (gameRooms s !! roomCode) as [room|] eqn:E; [|done].
  by destruct (shouldDelete now room).
Qed.

(** C2, as the code has it.  The sweep deletes a room without players
    whatever its age; it keeps a room that has at least one player,
    connected or not, as long as the room is at most eight hours old; and it
    deletes every room older than eight hours, whoever is in it. *)
Theorem C2_sweep_rooms (s : Server) (now : Z) (roomCode : string) (room : Room) :
  gameRooms s !! roomCode = Some room ->
  (players room = [] -> gameRooms (sweep s now) !! roomCode = None)
  /\ (players room <> [] -> (now - createdAt room <= eightHours)%Z ->
      gameRooms (sweep s now) !! roomCode = Some room)
  /\ ((eightHours < now - createdAt room)%Z ->
      gameRooms (sweep s now) !! roomCode = None).
Proof.
  intros Hroom. rewrite sweep_lookup, Hroom. unfold shouldDelete, eightHours.
  split; [|split].
  - intros ->. simpl. by rewrite orb_true_r.
  - intros Hne Hage. destruct (players room) as [|kp ps]; [done|]. simpl.
    rewrite !andb_false_r. simpl.
    by rewrite (proj2 (Z.ltb_ge _ _) Hage).
  - intros Hage. by rewrite (proj2 (Z.ltb_lt _ _) Hage), orb_true_r.
Qed.

Lemma C2_sweep_rooms_witness :
  let s := run initial soloTrace in
  gameRooms (sweep s eightHours) !! "ROOM01" = Some (roomAt s "ROOM01").
Proof.
  assert (Hroom : gameRooms (run initial soloTrace) !! "ROOM01"
                  = Some (roomAt (run initial soloTrace) "ROOM01"))
    by (vm_compute; reflexivity).
  refine (proj1 (proj2 (C2_sweep_rooms (run initial soloTrace) eightHours "ROOM01"
                          (roomAt (run initial soloTrace) "ROOM01") Hroom)) _ _).
  - vm_compute. discriminate.
  - vm_compute. discriminate.
Defined.

(** C2 as stated fails: nine hours after A created the room, with A still
    connected in it, the sweep deletes the room. *)
Lemma C2_sweep_deletes_connected_room :
  let s := run initial soloTrace in
  let now := (eightHours + 60 * 60 * 1000)%Z in
  existsb connected (JsObj.values (players (roomAt s "ROOM01"))) = true
  /\ is_Some (gameRooms s !! "ROOM01")
  /\ gameRooms (sweep s now) !! "ROOM01" = None.
Proof.
  split; [|split].
  - vm_compute. reflexivity.
  - eexists. vm_compute. reflexivity.
  - rewrite sweep_lookup. vm_compute. reflexivity.
Qed.

(** ** Reconnection *)

(** C1 on the code.  B submitted "5678" and dropped during the game; the seat
    reconnects on a new socket C within the grace period.  The reconnection
    succeeds and keeps the seat ready and the history as they were, but the
    secret stays filed under the old socket id: the snapshot carries no
    [mySecret], and the next guess of the opponent finds no secret. *)
Theorem C1_reconnect_loses_secret :
  let s := run initial graceTrace in
  let s' := fst (attemptReconnect s "C" "ROOM01" 2 15000) in
  secrets (gameState (roomAt s "ROOM01")) !! "B" = Some "5678"
  /\ (exists gs ps,
         snd (attemptReconnect s "C" "ROOM01" 2 15000) = AckReconnect gs ps None)
  /\ List.map (fun kp => (fst kp, playerNumber (snd kp), ready (snd kp)))
       (players (roomAt s' "ROOM01")) = [("A", 1%Z, true); ("C", 2%Z, true)]
  /\ history (gameState (roomAt s' "ROOM01")) = twoGuesses
  /\ history (gameState (roomAt s "ROOM01")) = twoGuesses
  /\ secrets (gameState (roomAt s' "ROOM01")) !! "B" = Some "5678"
  /\ secrets (gameState (roomAt s' "ROOM01")) !! "C" = None
  /\ snd (makeGuess s' "A" "5678" 16000) = AckFail MsgOpponentSecretMissing
  /\ snd (makeGuess s "A" "5678" 16000) = AckGuess (mkGuessResult 4 4) true.
Proof.
  repeat split; try (vm_compute; reflexivity).
  do 2 eexists. vm_compute. reflexivity.
Qed.

Lemma handlePlayerTimeout_no_room (s : Server) (roomCode : string) (pn : Z) :
  gameRooms s !! roomCode = None -> handlePlayerTimeout s roomCode pn = s.
Proof. intros H. unfold handlePlayerTimeout. by rewrite H. Qed.

(** X25.  A successful reconnection of a seat clears the timer that the
    room's table holds for that seat number and drops the entry, so that
    this timer, whenever it would have come due, does nothing.  An expiry
    callback that finds its room gone changes nothing. *)
Theorem X25_reconnect_clears_registered_timer
    (s : Server) (socketId roomCode : string) (pn now : Z) (room : Room) (t : nat) :
  gameRooms s !! roomCode = Some room ->
  is_Some (findPlayerBySession s roomCode pn) ->
  disconnectTimers room !! pn = Some t ->
  let s' := fst (attemptReconnect s socketId roomCode pn now) in
  timers s' = delete t (timers s)
  /\ (forall now', fireTimer s' t now' = s')
  /\ (exists room', gameRooms s' !! roomCode = Some room'
                    /\ disconnectTimers room' !! pn = None)
  /\ (forall rc pn', gameRooms s' !! rc = None -> handlePlayerTimeout s' rc pn' = s').
Proof.
  intros Hroom [[old player] Hfind] Ht s'. subst s'.
  unfold attemptReconnect, handleReconnection.
  rewrite Hroom, Hfind. simpl. rewrite Ht. simpl.
  split; [done|]. split; [|split].
  - intros now'. unfold fireTimer. simpl. by rewrite lookup_delete_eq.
  - eexists. split; [apply lookup_insert_eq|]. simpl. apply lookup_delete_eq.
  - intros rc pn' Hrc. by apply handlePlayerTimeout_no_room.
Qed.

Lemma X25_reconnect_clears_registered_timer_witness :
  let s := run initial graceTrace in
  let s' := fst (attemptReconnect s "C" "ROOM01" 2 15000) in
  timers s' = delete 1 (timers s)
  /\ (forall now', fireTimer s' 1 now' = s')
  /\ (exists room', gameRooms s' !! "ROOM01" = Some room'
                    /\ disconnectTimers room' !! 2%Z = None)
  /\ (forall rc pn', gameRooms s' !! rc = None -> handlePlayerTimeout s' rc pn' = s').
Proof.
  apply (X25_reconnect_clears_registered_timer (run initial graceTrace) "C" "ROOM01" 2 15000
           (roomAt (run initial graceTrace) "ROOM01") 1).
  - vm_compute. reflexivity.
  - eexists. vm_compute. reflexivity.
  - vm_compute. reflexivity.
Defined.

(** C3 on the code.  B, on seat 2, drops at 2 s, which arms expiry timer 0
    for 32 s.  After A has left and E has joined and dropped, the room's
    table holds E's timer in place of timer 0, which was never cleared.  The
    seat reconnects on socket F at 6 s, well inside the grace period, and
    the reconnection succeeds; F holds the player object that B had.  Timer
    0 is still pending.  When it comes due the callback does not look at the
    seat: it removes the reconnected, connected player, takes its socket out
    of [playerSockets] and deletes the room. *)
Theorem C3_expiry_removes_reconnected_seat :
  let dropped := run initial (lobbyTrace ++ [ADisconnect "B" 2000]) in
  let before :=
    run initial
      (lobbyTrace
       ++ [ADisconnect "B" 2000; ALeaveRoom "A"; AJoinRoom "E" "ROOM01" 4000;
           ADisconnect "E" 5000]) in
  let s := run initial staleTimerTrace in
  let s' := fireTimer s 0 32000 in
  timers dropped !! 0 = Some (mkTimer 32000 (ExpiryCb "ROOM01" 2))
  /\ List.map (fun kp => (fst kp, playerNumber (snd kp), connected (snd kp)))
       (players (roomAt before "ROOM01")) = [("B", 2%Z, false); ("E", 2%Z, false)]
  /\ (exists gs ps secret,
         snd (attemptReconnect before "F" "ROOM01" 2 6000)
         = AckReconnect gs ps secret)
  /\ s = fst (attemptReconnect before "F" "ROOM01" 2 6000)
  /\ List.map (fun kp => (fst kp, playerNumber (snd kp), connected (snd kp)))
       (players (roomAt s "ROOM01")) = [("E", 2%Z, false); ("F", 2%Z, true)]
  /\ timers s !! 0 = Some (mkTimer 32000 (ExpiryCb "ROOM01" 2))
  /\ playerSockets s !! "F" = Some "ROOM01"
  /\ gameRooms s' !! "ROOM01" = None
  /\ playerSockets s' !! "F" = None.
Proof.
  repeat split; try (vm_compute; reflexivity).
  do 3 eexists. vm_compute. reflexivity.
Qed.

(** ** Start of the game *)

(** C4 on the code.  Both players are ready and the start is armed; B leaves
    before the 500 ms are over, which puts the room back into the lobby with
    A not ready and no secret left.  The start callback then fires without
    looking at the room again: the game is started with one player, who is
    not ready. *)
Theorem C4_start_after_leave :
  let s := run initial leftBeforeStartTrace in
  reachable s
  /\ started (gameState (roomAt (run initial (readyTrace ++ [ALeaveRoom "B"])) "ROOM01"))
     = false
  /\ started (gameState (roomAt s "ROOM01")) = true
  /\ List.map (fun kp => (fst kp, playerNumber (snd kp), ready (snd kp)))
       (players (roomAt s "ROOM01")) = [("A", 1%Z, false)]
  /\ secrets (gameState (roomAt s "ROOM01")) = ∅.
Proof.
  split; [by exists leftBeforeStartTrace|].
  repeat split; vm_compute; reflexivity.
Qed.

(** ** Guessing *)

Lemma roomOf_Some (s : Server) (socketId : string) (room : Room) :
  roomOf s socketId = Some room ->
  exists roomCode, playerSockets s !! socketId = Some roomCode
                   /\ gameRooms s !! roomCode = Some room.
Proof.
  unfold roomOf. destruct (playerSockets s !! socketId) as [roomCode|]; [|done].
  intros H. by exists roomCode.
Qed.

(** Case analysis on the guards of [makeGuess], in the order of the code. *)
Ltac makeGuess_cases :=
  unfold makeGuess;
  repeat match goal with
    | |- context [match roomOf ?s ?k with _ => _ end] =>
        destruct (roomOf s k) eqn:?
    | |- context [match playerSockets ?s !! ?k with _ => _ end] =>
        destruct (playerSockets s !! k) eqn:?
    | |- context [if negb ?b then _ else _] => destruct b eqn:?; cbn [negb]
    | |- context [match JsObj.get ?k ?o with _ => _ end] =>
        destruct (JsObj.get k o) eqn:?
    | |- context [match opponentSecret ?r ?k with _ => _ end] =>
        destruct (opponentSecret r k) as [[|? ?]|] eqn:?
    end.

(** C6, as the code has it.  The guards of [makeGuess] are tried in the order
    of the code: a missing room or a game that has not started is a
    StateError whatever the guess; in a started game a guess that is not four
    distinct digits is a ValidationError whoever's turn it is; a well-formed
    guess of a caller without a seat is a NotFoundError, of a caller out of
    turn a StateError, and of the caller in turn a NotFoundError when the
    opponent has no recorded secret.  A failing [makeGuess] leaves the whole
    server state as it was. *)
Theorem C6_makeGuess_errors (s : Server) (socketId guess : string) (now : Z) :
  let ack := snd (makeGuess s socketId guess now) in
  (roomOf s socketId = None -> failsWith ack StateError)
  /\ (forall room,
         roomOf s socketId = Some room ->
         (started (gameState room) = false -> failsWith ack StateError)
         /\ (started (gameState room) = true ->
             (validateNumber guess = false -> failsWith ack ValidationError)
             /\ (validateNumber guess = true ->
                 (JsObj.get socketId (players room) = None ->
                  failsWith ack NotFoundError)
                 /\ (forall player,
                        JsObj.get socketId (players room) = Some player ->
                        (playerNumber player <> currentPlayer (gameState room) ->
                         failsWith ack StateError)
                        /\ (playerNumber player = currentPlayer (gameState room) ->
                            opponentSecret room socketId = None
                            \/ opponentSecret room socketId = Some "" ->
                            failsWith ack NotFoundError)))))
  /\ (forall m, ack = AckFail m -> fst (makeGuess s socketId guess now) = s).
Proof.
  intros ack. subst ack. split; [|split].
  - intros Hroom. unfold makeGuess. rewrite Hroom. by eexists.
  - intros room Hroom.
    destruct (roomOf_Some s socketId room Hroom) as (roomCode & Hsock & _).
    unfold makeGuess. rewrite Hroom, Hsock.
    split; [intros ->; by eexists|]. intros ->. cbn [negb].
    split; [intros ->; by eexists|]. intros ->. cbn [negb].
    split; [intros ->; by eexists|]. intros player ->.
    split.
    + intros Hne. apply Z.eqb_neq in Hne. rewrite Hne. by eexists.
    + intros Heq Hsecret. apply Z.eqb_eq in Heq. rewrite Heq. cbn [negb].
      destruct Hsecret as [-> | ->]; by eexists.
  - intros m. makeGuess_cases; cbn [fst snd]; try done.
    destruct (correctPosition (checkGuess guess _) =? 4); cbn [fst snd]; done.
Qed.

Lemma C6_makeGuess_errors_witness :
  let s := run initial startedTrace in
  failsWith (snd (makeGuess s "B" "1123" 4000)) ValidationError
  /\ fst (makeGuess s "B" "1123" 4000) = s.
Proof.
  assert (Hroom : roomOf (run initial startedTrace) "B"
                  = Some (roomAt (run initial startedTrace) "ROOM01"))
    by (vm_compute; reflexivity).
  destruct (C6_makeGuess_errors (run initial startedTrace) "B" "1123" 4000)
    as (_ & Horder & Hframe).
  split.
  - refine (proj1 (proj2 (Horder _ Hroom) _) _); vm_compute; reflexivity.
  - apply (Hframe MsgInvalidNumber). vm_compute. reflexivity.
Defined.

(** C6 as stated fails.  The game has started and it is the turn of seat 1;
    B, on seat 2, sends the guess "1123", which repeats a digit.  The answer
    is the ValidationError, not a StateError. *)
Lemma C6_malformed_guess_out_of_turn :
  let s := run initial startedTrace in
  let ack := snd (makeGuess s "B" "1123" 4000) in
  started (gameState (roomAt s "ROOM01")) = true
  /\ currentPlayer (gameState (roomAt s "ROOM01")) = 1%Z
  /\ playerNumber <$> JsObj.get "B" (players (roomAt s "ROOM01")) = Some 2%Z
  /\ validateNumber "1123" = false
  /\ failsWith ack ValidationError
  /\ ~ failsWith ack StateError.
Proof.
  repeat split; try (vm_compute; reflexivity).
  - exists MsgInvalidNumber. split; vm_compute; reflexivity.
  - intros (m & Hack & Hkind).
    assert (Hm : AckFail MsgInvalidNumber = AckFail m) by (rewrite <- Hack; vm_compute; reflexivity).
    inversion Hm; subst m. discriminate.
Qed.

(** C8.  A guess of a seated player is accepted exactly when the game has
    started, the guess is a valid number, it is the player's turn and the
    opponent has a recorded secret; the acknowledged result is then
    [checkGuess] against that secret.  After an accepted guess the guess is
    appended to the history; when the number of right positions is not four
    (so in particular when it is below four) the turn passes from seat 1 to
    seat 2 or from seat 2 to seat 1, [winner] and [winningGuess] stay as
    they were and a [turnChange] is broadcast; when all four are right, the
    turn stays, [winner] and [winningGuess] become the guesser's seat and
    guess, and a [gameEnd] is broadcast. *)
Theorem C8_makeGuess_turn
    (s : Server) (socketId guess : string) (now : Z)
    (roomCode : string) (room : Room) (player : Player) :
  playerSockets s !! socketId = Some roomCode ->
  gameRooms s !! roomCode = Some room ->
  JsObj.get socketId (players room) = Some player ->
  let s' := fst (makeGuess s socketId guess now) in
  let ack := snd (makeGuess s socketId guess now) in
  (forall r win,
      ack = AckGuess r win ->
      started (gameState room) = true
      /\ validateNumber guess = true
      /\ playerNumber player = currentPlayer (gameState room)
      /\ exists secret,
          opponentSecret room socketId = Some secret
          /\ secret <> ""
          /\ r = checkGuess guess secret
          /\ win = (correctPosition r =? 4))
  /\ (forall secret,
         started (gameState room) = true ->
         validateNumber guess = true ->
         playerNumber player = currentPlayer (gameState room) ->
         opponentSecret room socketId = Some secret ->
         secret <> "" ->
         let r := checkGuess guess secret in
         let win := correctPosition r =? 4 in
         let item :=
           mkHistoryItem (playerNumber player) (nickname player) guess r win now in
         ack = AckGuess r win
         /\ exists room',
             gameRooms s' !! roomCode = Some room'
             /\ history (gameState room') = history (gameState room) ++ [item]
             /\ (correctPosition r <> 4 ->
                 (currentPlayer (gameState room) = 1%Z ->
                  currentPlayer (gameState room') = 2%Z)
                 /\ (currentPlayer (gameState room) = 2%Z ->
                     currentPlayer (gameState room') = 1%Z)
                 /\ winner (gameState room') = winner (gameState room)
                 /\ winningGuess (gameState room') = winningGuess (gameState room)
                 /\ emitted s'
                    = emitted s
                        ++ [ToRoom roomCode
                              (TurnChange (currentPlayer (gameState room')) item
                                 (history (gameState room')))])
             /\ (correctPosition r = 4 ->
                 currentPlayer (gameState room') = currentPlayer (gameState room)
                 /\ winner (gameState room') = Value (playerNumber player)
                 /\ winningGuess (gameState room') = Value guess
                 /\ emitted s'
                    = emitted s
                        ++ [ToRoom roomCode
                              (GameEnd (playerNumber player) (nickname player)
                                 guess None (history (gameState room')))])).
Proof.
  intros Hsock Hroom Hget. cbv zeta. unfold makeGuess, roomOf.
  rewrite Hsock, Hroom, Hget. split.
  - intros r win.
    destruct (started (gameState room)); cbn [negb fst snd]; [|done].
    destruct (validateNumber guess); cbn [negb fst snd]; [|done].
    destruct (Z.eqb_spec (playerNumber player) (currentPlayer (gameState room)))
      as [Hturn|_]; cbn [negb fst snd]; [|done].
    destruct (opponentSecret room socketId) as [[|a secret]|]; try done.
    remember (checkGuess guess (String a secret)) as res eqn:Hres.
    destruct (correctPosition res =? 4) eqn:Hwin; cbn [fst snd];
      intros Hack; inversion Hack; subst r win;
      (split; [done|]); (split; [done|]); (split; [done|]);
      exists (String a secret); by rewrite Hwin.
  - intros secret -> -> Hturn -> Hne. cbn [negb].
    rewrite (proj2 (Z.eqb_eq _ _) Hturn). cbn [negb].
    destruct secret as [|a secret]; [done|].
    generalize (checkGuess guess (String a secret)). intros res.
    destruct (correctPosition res =? 4) eqn:Hwin; cbn [fst snd];
      (split; [done|]); eexists; (split; [apply lookup_insert_eq|]);
      (split; [reflexivity|]); simpl.
    + apply Nat.eqb_eq in Hwin. split; [done|]. done.
    + apply Nat.eqb_neq in Hwin. split; [|done]. intros _.
      repeat split; try done; intros ->; done.
Qed.

Lemma C8_makeGuess_turn_witness :
  let s := run initial startedTrace in
  let won := fst (makeGuess s "A" "5678" 4000) in
  let missed := fst (makeGuess s "A" "5612" 4000) in
  (snd (makeGuess s "A" "5678" 4000) = AckGuess (mkGuessResult 4 4) true
   /\ exists room',
       gameRooms won !! "ROOM01" = Some room'
       /\ currentPlayer (gameState room') = 1%Z
       /\ winner (gameState room') = Value 1%Z
       /\ winningGuess (gameState room') = Value "5678"
       /\ emitted won
          = emitted s
              ++ [ToRoom "ROOM01"
                    (GameEnd 1 "ผู้เล่น 1" "5678" None (history (gameState room')))])
  /\ (snd (makeGuess s "A" "5612" 4000) = AckGuess (mkGuessResult 2 2) false
      /\ exists room',
          gameRooms missed !! "ROOM01" = Some room'
          /\ currentPlayer (gameState room') = 2%Z
          /\ winner (gameState room') = Undefined
          /\ emitted missed
             = emitted s
                 ++ [ToRoom "ROOM01"
                       (TurnChange 2
                          (mkHistoryItem 1 "ผู้เล่น 1" "5612" (mkGuessResult 2 2)
                             false 4000)
                          (history (gameState room')))]).
Proof.
  assert (Hsock : playerSockets (run initial startedTrace) !! "A" = Some "ROOM01")
    by (vm_compute; reflexivity).
  assert (Hroom : gameRooms (run initial startedTrace) !! "ROOM01"
                  = Some (roomAt (run initial startedTrace) "ROOM01"))
    by (vm_compute; reflexivity).
  assert (Hget : JsObj.get "A" (players (roomAt (run initial startedTrace) "ROOM01"))
                 = Some playerA)
    by (vm_compute; reflexivity).
  assert (Hst : started (gameState (roomAt (run initial startedTrace) "ROOM01")) = true)
    by (vm_compute; reflexivity).
  assert (Hturn : playerNumber playerA
                  = currentPlayer (gameState (roomAt (run initial startedTrace) "ROOM01")))
    by (vm_compute; reflexivity).
  assert (Hsecret : opponentSecret (roomAt (run initial startedTrace) "ROOM01") "A"
                    = Some "5678")
    by (vm_compute; reflexivity).
  assert (Hne : "5678" <> "") by discriminate.
  split.
  - destruct (proj2 (C8_makeGuess_turn (run initial startedTrace) "A" "5678" 4000
                       "ROOM01" (roomAt (run initial startedTrace) "ROOM01") playerA
                       Hsock Hroom Hget)
                "5678" Hst eq_refl Hturn Hsecret Hne)
      as (Hack & room' & Hr & _ & _ & Hwon).
    destruct (Hwon eq_refl) as (Hc & Hw & Hg & He).
    split; [exact Hack|]. exists room'.
    split; [exact Hr|]. split; [exact Hc|]. split; [exact Hw|].
    split; [exact Hg|exact He].
  - destruct (proj2 (C8_makeGuess_turn (run initial startedTrace) "A" "5612" 4000
                       "ROOM01" (roomAt (run initial startedTrace) "ROOM01") playerA
                       Hsock Hroom Hget)
                "5678" Hst eq_refl Hturn Hsecret Hne)
      as (Hack & room' & Hr & _ & Hmiss & _).
    assert (Hcp : correctPosition (checkGuess "5612" "5678") <> 4)
      by (vm_compute; discriminate).
    destruct (Hmiss Hcp) as (H1 & _ & Hw & _ & He).
    pose proof (H1 eq_refl) as Hc. rewrite Hc in He.
    split; [exact Hack|]. exists room'.
    split; [exact Hr|]. split; [exact Hc|]. split; [exact Hw|exact He].
Defined.

(** ** Submitting a secret *)

(** C9.  When the caller's seat is already ready, [submitSecret] answers with
    success and leaves the whole server state as it was, whatever the
    submitted secret; the four-distinct-digits rule is applied only when the
    seat is not ready yet, where a malformed secret is refused and a
    well-formed one is accepted. *)
Theorem C9_submitSecret_ready
    (s : Server) (socketId secret : string) (now : Z)
    (roomCode : string) (room : Room) (player : Player) :
  playerSockets s !! socketId = Some roomCode ->
  gameRooms s !! roomCode = Some room ->
  JsObj.get socketId (players room) = Some player ->
  (ready player = true ->
   submitSecret s socketId secret now = (s, AckOk MsgAlreadySubmitted))
  /\ (ready player = false ->
      (validateNumber secret = false ->
       submitSecret s socketId secret now = (s, AckFail MsgInvalidNumber))
      /\ (validateNumber secret = true ->
          snd (submitSecret s socketId secret now) = AckOk MsgSubmitted)).
Proof.
  intros Hsock Hroom Hplayer. unfold submitSecret.
  rewrite Hsock, Hroom, Hplayer. split.
  - by intros ->.
  - intros ->. split; by intros ->.
Qed.

Lemma C9_submitSecret_ready_witness :
  let s := run initial startedTrace in
  submitSecret s "A" "12" 5000 = (s, AckOk MsgAlreadySubmitted).
Proof.
  refine (proj1 (C9_submitSecret_ready (run initial startedTrace) "A" "12" 5000
                   "ROOM01" (roomAt (run initial startedTrace) "ROOM01") playerA
                   _ _ _) _);
    vm_compute; reflexivity.
Defined.

(** ** Reset *)

Lemma mapValues_keys {V W} (f : V -> W) (o : JsObj.t V) :
  JsObj.keys (JsObj.mapValues f o) = JsObj.keys o.
Proof.
  unfold JsObj.keys, JsObj.mapValues. rewrite List.map_map.
  by apply List.map_ext.
Qed.

Lemma mapValues_Forall2 {V W} (f : V -> W) (o : JsObj.t V) :
  Forall2 (fun kv kw => fst kw = fst kv /\ snd kw = f (snd kv))
    o (JsObj.mapValues f o).
Proof. induction o as [|kv o IH]; constructor; done. Qed.

(** C10.  [resetGame] puts the lobby snapshot in place of the game state
    (not started, seat 1 to move, no secrets, no history, [winner] and
    [winningGuess] null), makes every player not ready and clears every
    timer of the room's table, which it empties.  The players stay the same
    in number, key and order, and each keeps its id, seat number, nickname,
    [connected], [tempDisconnected], [lastSeen] and [reconnectedAt]. *)
Theorem C10_resetGame_frame
    (s : Server) (socketId roomCode : string) (room : Room) :
  playerSockets s !! socketId = Some roomCode ->
  gameRooms s !! roomCode = Some room ->
  let s' := resetGame s socketId in
  exists room',
    gameRooms s' !! roomCode = Some room'
    /\ gameState room' = mkGameState false 1 ∅ [] Null Null None
    /\ JsObj.keys (players room') = JsObj.keys (players room)
    /\ Forall2
         (fun kp kp' =>
            fst kp' = fst kp
            /\ ready (snd kp') = false
            /\ playerId (snd kp') = playerId (snd kp)
            /\ playerNumber (snd kp') = playerNumber (snd kp)
            /\ nickname (snd kp') = nickname (snd kp)
            /\ connected (snd kp') = connected (snd kp)
            /\ tempDisconnected (snd kp') = tempDisconnected (snd kp)
            /\ lastSeen (snd kp') = lastSeen (snd kp)
            /\ reconnectedAt (snd kp') = reconnectedAt (snd kp))
         (players room) (players room')
    /\ disconnectTimers room' = ∅
    /\ (forall pn t, disconnectTimers room !! pn = Some t -> timers s' !! t = None)
    /\ (forall t, (forall pn, disconnectTimers room !! pn <> Some t) ->
                  timers s' !! t = timers s !! t)
    /\ playerSockets s' = playerSockets s.
Proof.
  intros Hsock Hroom s'. subst s'. unfold resetGame, roomOf.
  rewrite Hsock, Hroom.
  destruct (clearTimers_spec (disconnectTimers room) s)
    as (Hrooms & Hsockets & _ & _ & Hcleared & Hkept).
  eexists. split; [apply lookup_insert_eq|]. cbn.
  split; [done|]. split; [apply mapValues_keys|]. split.
  - eapply Forall2_impl; [apply mapValues_Forall2|].
    intros kp kp' [Hk ->]. by repeat split.
  - repeat split; done.
Qed.

Lemma C10_resetGame_frame_witness :
  let s := run initial graceTrace in
  let room := roomAt s "ROOM01" in
  let s' := resetGame s "A" in
  exists room',
    gameRooms s' !! "ROOM01" = Some room'
    /\ gameState room' = mkGameState false 1 ∅ [] Null Null None
    /\ JsObj.keys (players room') = JsObj.keys (players room)
    /\ Forall2
         (fun kp kp' =>
            fst kp' = fst kp
            /\ ready (snd kp') = false
            /\ playerId (snd kp') = playerId (snd kp)
            /\ playerNumber (snd kp') = playerNumber (snd kp)
            /\ nickname (snd kp') = nickname (snd kp)
            /\ connected (snd kp') = connected (snd kp)
            /\ tempDisconnected (snd kp') = tempDisconnected (snd kp)
            /\ lastSeen (snd kp') = lastSeen (snd kp)
            /\ reconnectedAt (snd kp') = reconnectedAt (snd kp))
         (players room) (players room')
    /\ disconnectTimers room' = ∅
    /\ (forall pn t, disconnectTimers room !! pn = Some t -> timers s' !! t = None)
    /\ (forall t, (forall pn, disconnectTimers room !! pn <> Some t) ->
                  timers s' !! t = timers s !! t)
    /\ playerSockets s' = playerSockets s.
Proof.
  apply (C10_resetGame_frame (run initial graceTrace) "A" "ROOM01"
           (roomAt (run initial graceTrace) "ROOM01"));
    vm_compute; reflexivity.
Defined.

(** * Further properties *)

(** ** More on the GuessEngine *)

Lemma setOf_fold_le (l acc : list ascii) :
  length
    (fold_left
       (fun acc c => if existsb (Ascii.eqb c) acc then acc else acc ++ [c]) l acc)
  <= length acc + length l.
Proof.
  revert acc. induction l as [|c l IH]; intros acc; simpl; [lia|].
  destruct (existsb (Ascii.eqb c) acc).
  - specialize (IH acc). lia.
  - specialize (IH (acc ++ [c])). rewrite length_app in IH. simpl in IH. lia.
Qed.

Lemma existsb_eqb_elem (c : ascii) (l : list ascii) :
  existsb (Ascii.eqb c) l = true <-> c ∈ l.
Proof.
  rewrite existsb_exists, list_elem_of_In. split.
  - intros (x & Hx & E). apply Ascii.eqb_eq in E. by subst x.
  - intros H. exists c. split; [done|apply Ascii.eqb_refl].
Qed.

Lemma setOf_fold_eq (l acc : list ascii) :
  length
    (fold_left
       (fun acc c => if existsb (Ascii.eqb c) acc then acc else acc ++ [c]) l acc)
  = length acc + length l
  <-> NoDup l /\ forall c, c ∈ l -> c ∉ acc.
Proof.
  revert acc. induction l as [|c l IH]; intros acc; simpl.
  - split; [|lia]. intros _. split; [constructor|]. intros c H. inversion H.
  - destruct (existsb (Ascii.eqb c) acc) eqn:E.
    + apply existsb_eqb_elem in E. split.
      * pose proof (setOf_fold_le l acc). lia.
      * intros [_ H]. exfalso. apply (H c); [left|done].
    + assert (Hc : c ∉ acc).
      { intros H. apply existsb_eqb_elem in H. congruence. }
      assert (Hl : length acc + S (length l) = length (acc ++ [c]) + length l)
        by (rewrite length_app; simpl; lia).
      rewrite Hl, IH. split.
      * intros [Hnd Hdis]. split.
        -- apply NoDup_cons. split; [|done].
           intros Hin. apply (Hdis c Hin). apply elem_of_app. right. left.
        -- intros x Hx. apply elem_of_cons in Hx as [->|Hx]; [done|].
           intros Hacc. apply (Hdis x Hx). apply elem_of_app. by left.
      * intros [Hnd Hdis]. apply NoDup_cons in Hnd as [Hc' Hnd].
        split; [done|].
        intros x Hx Happ. apply elem_of_app in Happ as [Hacc|Hx'].
        -- apply (Hdis x); [by right|done].
        -- apply list_elem_of_singleton in Hx'. by subst x.
Qed.


(** X1.  [validateNumber] accepts exactly the strings of four characters
    that are all decimal digits and pairwise distinct. *)
Theorem X1_validateNumber_iff (num : string) :
  validateNumber num = true
  <-> length (list_ascii_of_string num) = 4
      /\ Forall (fun c => isDigit c = true) (list_ascii_of_string num)
      /\ NoDup (list_ascii_of_string num).
Proof.
  unfold validateNumber, setOf.
  pose proof (setOf_fold_eq (list_ascii_of_string num) []) as Heq.
  simpl in Heq.
  destruct (length (list_ascii_of_string num) =? 4) eqn:E4; simpl.
  - apply Nat.eqb_eq in E4.
    destruct (forallb isDigit (list_ascii_of_string num)) eqn:Ed; simpl.
    + rewrite forallb_forall in Ed. rewrite Nat.eqb_eq, <- E4 at 1.
      rewrite Heq. split.
      * intros [Hnd _]. repeat split; try done.
        apply Forall_forall. intros c Hc. apply Ed. by apply list_elem_of_In.
      * intros (_ & _ & Hnd). split; [done|]. intros c _ H. inversion H.
    + split; [done|]. intros (_ & Hd & _). exfalso.
      assert (forallb isDigit (list_ascii_of_string num) = true); [|congruence].
      apply forallb_forall. intros c Hc. rewrite Forall_forall in Hd.
      apply Hd. by apply list_elem_of_In.
  - apply Nat.eqb_neq in E4. split; [done|]. intros [? _]. done.
Qed.

Lemma alignedMatches_sym (g s : list ascii) :
  alignedMatches g s = alignedMatches s g.
Proof.
  revert s. induction g as [|x g IH]; intros [|y s]; simpl; try done.
  by rewrite IH, (Ascii.eqb_sym x y).
Qed.

Lemma aligned_four_eq (g s : list ascii) :
  length g = 4 -> length s = 4 -> (alignedMatches g s = 4 <-> g = s).
Proof.
  intros Hg Hs.
  destruct g as [|a [|b [|c [|d [|? ?]]]]]; try discriminate.
  destruct s as [|e [|f [|i [|j [|? ?]]]]]; try discriminate.
  simpl.
  destruct (Ascii.eqb_spec a e), (Ascii.eqb_spec b f), (Ascii.eqb_spec c i),
    (Ascii.eqb_spec d j); split; intros H; simpl in *;
    first [lia | congruence].
Qed.

Lemma list_ascii_of_string_eq (x y : string) :
  list_ascii_of_string x = list_ascii_of_string y -> x = y.
Proof.
  intros H. rewrite <- (string_of_list_ascii_of_string x),
    <- (string_of_list_ascii_of_string y). by rewrite H.
Qed.

(** X2.  On strings of four characters a guess has all four positions right
    exactly when it is the secret. *)
Theorem X2_checkGuess_win_iff (guess secret : string) :
  length (list_ascii_of_string guess) = 4 ->
  length (list_ascii_of_string secret) = 4 ->
  (correctPosition (checkGuess guess secret) = 4 <-> guess = secret).
Proof.
  intros Hg Hs.
  destruct (correctPosition_aligned guess secret Hg Hs) as [-> _].
  rewrite (aligned_four_eq _ _ Hg Hs). split.
  - apply list_ascii_of_string_eq.
  - by intros ->.
Qed.

Lemma X2_checkGuess_win_iff_witness :
  correctPosition (checkGuess "1234" "1234") = 4 <-> "1234" = "1234".
Proof. apply (X2_checkGuess_win_iff "1234" "1234"); reflexivity. Defined.

(** X3.  On strings of four digits the result does not depend on which of
    the two is the guess and which the secret. *)
Theorem X3_checkGuess_sym (guess secret : string) :
  fourDigits guess -> fourDigits secret ->
  checkGuess guess secret = checkGuess secret guess.
Proof.
  intros [Hg4 Hgd] [Hs4 Hsd].
  assert (Hrec : forall r, r = mkGuessResult (correctPosition r) (correctNumber r))
    by (by intros []).
  rewrite (Hrec (checkGuess guess secret)), (Hrec (checkGuess secret guess)).
  destruct (correctPosition_aligned guess secret Hg4 Hs4) as [-> _].
  destruct (correctPosition_aligned secret guess Hs4 Hg4) as [-> _].
  rewrite !correctNumber_valueMatches by done.
  rewrite alignedMatches_sym. f_equal.
  unfold valueMatches. apply sum_list_with_agree. intros d. apply Nat.min_comm.
Qed.

Lemma X3_checkGuess_sym_witness :
  checkGuess "1256" "1234" = checkGuess "1234" "1256".
Proof.
  apply (X3_checkGuess_sym "1256" "1234");
    (split; [reflexivity | repeat constructor]).
Defined.

Lemma countIncr_absent (d : ascii) (c : list (ascii * nat)) :
  d ∉ c.*1 -> countIncr d c = c ++ [(d, 1)].
Proof.
  induction c as [|[d' n] c IH]; intros H; simpl; [done|].
  destruct (Ascii.eqb d' d) eqn:E.
  - apply Ascii.eqb_eq in E. subst d'. exfalso. apply H. left.
  - rewrite IH; [done|]. intros Hin. apply H. by right.
Qed.

Lemma countAll_distinct (g : list ascii) :
  NoDup g -> countAll g = List.map (fun d => (d, 1)) g.
Proof.
  unfold countAll.
  enough (H : forall c, NoDup (c.*1 ++ g) ->
                        fold_left (fun count d => countIncr d count) g c
                        = c ++ List.map (fun d => (d, 1)) g)
    by (intros Hnd; by apply (H [])).
  induction g as [|d g IH]; intros c Hnd; simpl.
  - by rewrite app_nil_r.
  - rewrite countIncr_absent.
    + rewrite IH.
      * by rewrite <- app_assoc.
      * rewrite fmap_app. simpl. by rewrite <- app_assoc.
    + apply NoDup_app in Hnd as (_ & Hdis & _). intros Hin.
      apply (Hdis d Hin). left.
Qed.

Lemma occurrences_pos (d : ascii) (l : list ascii) :
  (occurrences d l =? 0) = negb (existsb (Ascii.eqb d) l).
Proof.
  induction l as [|x l IH]; [done|].
  rewrite occurrences_cons. simpl. destruct (Ascii.eqb d x); [done|].
  exact IH.
Qed.

(** X4.  When the characters of the guess are pairwise distinct,
    [correctNumber] is the number of characters of the guess that occur in
    the secret; in particular it is at most the length of the guess. *)
Theorem X4_correctNumber_distinct (guess secret : string) :
  NoDup (list_ascii_of_string guess) ->
  correctNumber (checkGuess guess secret)
  = length
      (List.filter
         (fun d => existsb (Ascii.eqb d) (list_ascii_of_string secret))
         (list_ascii_of_string guess))
  /\ correctNumber (checkGuess guess secret)
     <= length (list_ascii_of_string guess).
Proof.
  intros Hnd.
  assert (Heq : correctNumber (checkGuess guess secret)
                = length
                    (List.filter
                       (fun d => existsb (Ascii.eqb d) (list_ascii_of_string secret))
                       (list_ascii_of_string guess))).
  { unfold checkGuess. cbn [correctNumber].
    rewrite (countAll_distinct _ Hnd).
    set (s := list_ascii_of_string secret).
    generalize (list_ascii_of_string guess) as g. intros g.
    enough (H : forall a,
               fold_left
                 (fun acc dg =>
                    match countGet (fst dg) (countAll s) with
                    | Some (S n) => acc + Nat.min (snd dg) (S n)
                    | _ => acc
                    end)
                 (List.map (fun d => (d, 1)) g) a
               = a + length (List.filter (fun d => existsb (Ascii.eqb d) s) g))
      by apply (H 0).
    induction g as [|d g IH]; intros a; simpl; [lia|].
    rewrite IH.
    pose proof (countOf_countAll s d) as Hc. unfold countOf in Hc.
    pose proof (occurrences_pos d s) as Hp.
    destruct (countGet d (countAll s)) as [[|n]|];
      rewrite <- Hc in Hp; simpl in Hp;
      destruct (existsb (Ascii.eqb d) s); simpl in *; try discriminate; lia. }
  split; [exact Heq|]. rewrite Heq. apply filter_length_le.
Qed.

Lemma X4_correctNumber_distinct_witness :
  correctNumber (checkGuess "1256" "1234")
  = length
      (List.filter
         (fun d => existsb (Ascii.eqb d) (list_ascii_of_string "1234"))
         (list_ascii_of_string "1256"))
  /\ correctNumber (checkGuess "1256" "1234")
     <= length (list_ascii_of_string "1256").
Proof.
  apply (X4_correctNumber_distinct "1256" "1234").
  apply (bool_decide_unpack _). vm_compute. exact I.
Defined.

(** ** Room codes *)

Lemma charAt_roomCodeChars (n : nat) :
  n < 36 ->
  exists c, charAt roomCodeChars n = String c EmptyString
            /\ c ∈ list_ascii_of_string roomCodeChars.
Proof.
  intros H.
  do 36 (destruct n as [|n];
         [eexists; split; [reflexivity|]; vm_compute;
          repeat first [apply list_elem_of_here | apply list_elem_of_further]|]).
  lia.
Qed.

(** X5.  With every draw below 36, as [Math.floor(Math.random() * 36)] is,
    [generateRoomCode] gives a code of exactly six characters, each of them
    a capital letter or a digit of its alphabet. *)
Theorem X5_generateRoomCode_shape (draws : nat -> nat) :
  (forall i, i < 6 -> draws i < 36) ->
  String.length (generateRoomCode draws) = 6
  /\ Forall (fun c => c ∈ list_ascii_of_string roomCodeChars)
       (list_ascii_of_string (generateRoomCode draws)).
Proof.
  intros H. unfold generateRoomCode. cbn [seq fold_left].
  destruct (charAt_roomCodeChars (draws 0)) as (c0 & -> & H0); [apply H; lia|].
  destruct (charAt_roomCodeChars (draws 1)) as (c1 & -> & H1); [apply H; lia|].
  destruct (charAt_roomCodeChars (draws 2)) as (c2 & -> & H2); [apply H; lia|].
  destruct (charAt_roomCodeChars (draws 3)) as (c3 & -> & H3); [apply H; lia|].
  destruct (charAt_roomCodeChars (draws 4)) as (c4 & -> & H4); [apply H; lia|].
  destruct (charAt_roomCodeChars (draws 5)) as (c5 & -> & H5); [apply H; lia|].
  cbn [String.append String.length list_ascii_of_string].
  split; [reflexivity|].
  repeat (apply Forall_cons; split; [assumption|]). apply Forall_nil_2.
Qed.

Lemma X5_generateRoomCode_shape_witness :
  String.length (generateRoomCode (fun i => 7 * i)) = 6
  /\ Forall (fun c => c ∈ list_ascii_of_string roomCodeChars)
       (list_ascii_of_string (generateRoomCode (fun i => 7 * i))).
Proof.
  apply (X5_generateRoomCode_shape (fun i => 7 * i)). intros i Hi. lia.
Defined.

(** ** More on objects *)

Lemma get_In {V} (o : JsObj.t V) (k : string) (v : V) :
  JsObj.get k o = Some v -> In (k, v) o.
Proof.
  induction o as [|[k' v'] o IH]; intros H; [done|]. simpl in *.
  destruct (String.eqb k' k) eqn:E.
  - apply String.eqb_eq in E. left. congruence.
  - right. by apply IH.
Qed.

Lemma get_None_keys {V} (o : JsObj.t V) (k : string) :
  JsObj.get k o = None <-> k ∉ JsObj.keys o.
Proof.
  induction o as [|[k' v'] o IH]; simpl.
  - split; [|done]. intros _ H. inversion H.
  - rewrite not_elem_of_cons. destruct (String.eqb_spec k' k) as [->|Hne].
    + split; [done|]. intros [H _]. done.
    + rewrite IH. split; [|tauto]. intros H. split; [congruence|done].
Qed.

Lemma get_set_eq {V} (o : JsObj.t V) (k : string) (v : V) :
  JsObj.get k (JsObj.set k v o) = Some v.
Proof.
  induction o as [|[k' v'] o IH]; simpl.
  - by rewrite String.eqb_refl.
  - destruct (String.eqb k' k) eqn:E; simpl; by rewrite E.
Qed.

Lemma get_set_ne {V} (o : JsObj.t V) (k k' : string) (v : V) :
  k <> k' -> JsObj.get k' (JsObj.set k v o) = JsObj.get k' o.
Proof.
  intros Hne. induction o as [|[k0 v0] o IH]; simpl.
  - by rewrite (proj2 (String.eqb_neq k k')).
  - destruct (String.eqb_spec k0 k) as [->|Hk]; simpl.
    + by rewrite (proj2 (String.eqb_neq k k')).
    + by rewrite IH.
Qed.

Lemma get_del_eq {V} (o : JsObj.t V) (k : string) :
  JsObj.get k (JsObj.del k o) = None.
Proof.
  induction o as [|[k0 v0] o IH]; simpl; [done|].
  destruct (String.eqb k0 k) eqn:E; simpl; [done|]. by rewrite E.
Qed.

Lemma get_del_ne {V} (o : JsObj.t V) (k k' : string) :
  k <> k' -> JsObj.get k' (JsObj.del k o) = JsObj.get k' o.
Proof.
  intros Hne. induction o as [|[k0 v0] o IH]; simpl; [done|].
  destruct (String.eqb_spec k0 k) as [->|Hk]; simpl.
  - by rewrite (proj2 (String.eqb_neq k k')).
  - by rewrite IH.
Qed.

Lemma get_mapValues {V W} (f : V -> W) (o : JsObj.t V) (k : string) :
  JsObj.get k (JsObj.mapValues f o) = f <$> JsObj.get k o.
Proof.
  induction o as [|[k0 v0] o IH]; simpl; [done|].
  by destruct (String.eqb k0 k).
Qed.

Lemma set_keys {V} (o : JsObj.t V) (k : string) (v : V) :
  JsObj.keys (JsObj.set k v o)
  = if bool_decide (k ∈ JsObj.keys o) then JsObj.keys o
    else JsObj.keys o ++ [k].
Proof.
  induction o as [|[k0 v0] o IH]; simpl; [done|].
  destruct (String.eqb_spec k0 k) as [->|Hk]; simpl.
  - rewrite bool_decide_true; [done|]. left.
  - rewrite IH. destruct (bool_decide (k ∈ JsObj.keys o)) eqn:E.
    + apply bool_decide_eq_true in E. rewrite bool_decide_true; [done|]. by right.
    + apply bool_decide_eq_false in E. rewrite bool_decide_false; [done|].
      rewrite not_elem_of_cons. split; [congruence|done].
Qed.

Lemma set_In {V} (o : JsObj.t V) (k : string) (v : V) (kv : string * V) :
  In kv (JsObj.set k v o) -> kv = (k, v) \/ In kv o.
Proof.
  induction o as [|[k0 v0] o IH]; simpl.
  - intros [<-|[]]. by left.
  - destruct (String.eqb_spec k0 k) as [->|Hk]; simpl.
    + intros [<-|?]; [by left|right; by right].
    + intros [<-|H]; [right; by left|].
      destruct (IH H); [by left|right; by right].
Qed.

Lemma set_In_other {V} (o : JsObj.t V) (k : string) (v : V) (kv : string * V) :
  NoDup (JsObj.keys o) -> In kv (JsObj.set k v o) -> fst kv <> k -> In kv o.
Proof.
  intros _ H Hne. destruct (set_In o k v kv H) as [->|?]; [done|done].
Qed.

Lemma set_In_same {V} (o : JsObj.t V) (k : string) (v v' : V) :
  NoDup (JsObj.keys o) -> In (k, v') (JsObj.set k v o) -> v' = v.
Proof.
  intros Hnd H.
  assert (Hnd' : NoDup (JsObj.keys (JsObj.set k v o))).
  { rewrite set_keys. case_bool_decide; [done|].
    apply NoDup_app. split; [done|]. split; [|apply NoDup_singleton].
    intros x Hx Hx'. apply list_elem_of_singleton in Hx'. by subst x. }
  pose proof (get_of_entry _ _ _ Hnd' H) as Hget.
  rewrite get_set_eq in Hget. congruence.
Qed.

Lemma del_keys {V} (o : JsObj.t V) (k : string) :
  JsObj.keys (JsObj.del k o)
  = List.filter (fun k' => negb (String.eqb k' k)) (JsObj.keys o).
Proof.
  induction o as [|[k0 v0] o IH]; simpl; [done|].
  destruct (String.eqb k0 k); simpl; by rewrite <- IH.
Qed.

Lemma filter_keys_NoDup {V} (f : string * V -> bool) (o : JsObj.t V) :
  NoDup (JsObj.keys o) -> NoDup (JsObj.keys (List.filter f o)).
Proof.
  induction o as [|[k0 v0] o IH]; simpl; [done|].
  intros Hnd. apply NoDup_cons in Hnd as [Hk Hnd].
  destruct (f (k0, v0)); simpl; [|by apply IH].
  apply NoDup_cons. split; [|by apply IH].
  intros Hin. apply Hk. apply list_elem_of_In in Hin. apply list_elem_of_In.
  unfold JsObj.keys in *. apply in_map_iff in Hin as (kv & Hfst & Hkv).
  apply filter_In in Hkv as [Hkv _]. apply in_map_iff. by exists kv.
Qed.

Lemma filter_Forall {A} (P : A -> Prop) (f : A -> bool) (l : list A) :
  Forall P l -> Forall P (List.filter f l).
Proof.
  intros H. apply Forall_forall. intros x Hx. rewrite Forall_forall in H.
  apply H. apply list_elem_of_In in Hx. apply filter_In in Hx as [Hx _].
  by apply list_elem_of_In.
Qed.

Lemma del_length_lt {V} (o : JsObj.t V) (k : string) :
  k ∈ JsObj.keys o -> length (JsObj.del k o) < length o.
Proof.
  induction o as [|[k0 v0] o IH]; simpl; [intros H; inversion H|].
  destruct (String.eqb_spec k0 k) as [->|Hk]; simpl.
  - intros _. pose proof (filter_length_le (fun kv => negb (String.eqb (fst kv) k)) o).
    unfold JsObj.del in *. lia.
  - rewrite elem_of_cons. intros [?|H]; [congruence|].
    specialize (IH H). unfold JsObj.del in *. lia.
Qed.

Lemma set_length {V} (o : JsObj.t V) (k : string) (v : V) :
  length (JsObj.set k v o)
  = if bool_decide (k ∈ JsObj.keys o) then length o else S (length o).
Proof.
  rewrite <- (length_map fst (JsObj.set k v o)), <- (length_map fst o).
  change (List.map fst (JsObj.set k v o)) with (JsObj.keys (JsObj.set k v o)).
  change (List.map fst o) with (JsObj.keys o).
  rewrite set_keys. case_bool_decide; [done|].
  rewrite length_app. simpl. lia.
Qed.

(** ** Rooms stay well formed *)

Lemma get_playerOk (ps : JsObj.t Player) (k : string) (p : Player) :
  Forall playerOk ps -> JsObj.get k ps = Some p -> playerOk (k, p).
Proof.
  intros Hall Hget. rewrite Forall_forall in Hall. apply Hall.
  apply list_elem_of_In. by apply get_In.
Qed.

Lemma set_ok (ps : JsObj.t Player) (k : string) (p : Player) :
  NoDup (JsObj.keys ps) -> Forall playerOk ps -> playerOk (k, p) ->
  NoDup (JsObj.keys (JsObj.set k p ps)) /\ Forall playerOk (JsObj.set k p ps).
Proof.
  intros Hnd Hall Hp. split.
  - rewrite set_keys. case_bool_decide; [done|].
    apply NoDup_app. split; [done|]. split; [|apply NoDup_singleton].
    intros x Hx Hx'. apply list_elem_of_singleton in Hx'. by subst x.
  - apply Forall_forall. intros kv Hkv. apply list_elem_of_In in Hkv.
    destruct (set_In _ _ _ _ Hkv) as [->|Hin]; [done|].
    rewrite Forall_forall in Hall. apply Hall. by apply list_elem_of_In.
Qed.

Lemma del_ok (ps : JsObj.t Player) (k : string) :
  NoDup (JsObj.keys ps) -> Forall playerOk ps ->
  length (JsObj.del k ps) <= length ps
  /\ NoDup (JsObj.keys (JsObj.del k ps)) /\ Forall playerOk (JsObj.del k ps).
Proof.
  intros Hnd Hall. unfold JsObj.del. split; [apply filter_length_le|].
  split; [by apply filter_keys_NoDup|by apply filter_Forall].
Qed.

Lemma mapValues_ok (f : Player -> Player) (ps : JsObj.t Player) :
  (forall p, playerId (f p) = playerId p /\ playerNumber (f p) = playerNumber p) ->
  NoDup (JsObj.keys ps) -> Forall playerOk ps ->
  length (JsObj.mapValues f ps) = length ps
  /\ NoDup (JsObj.keys (JsObj.mapValues f ps))
  /\ Forall playerOk (JsObj.mapValues f ps).
Proof.
  intros Hf Hnd Hall. split; [apply length_map|]. split.
  - by rewrite mapValues_keys.
  - unfold JsObj.mapValues. apply Forall_forall. intros kv Hkv.
    apply list_elem_of_In, in_map_iff in Hkv as ([k p] & <- & Hin).
    rewrite Forall_forall in Hall. apply list_elem_of_In, Hall in Hin.
    destruct Hin as [Hid Hseat]. destruct (Hf p) as [Hid' Hseat'].
    unfold playerOk in *. simpl in *. by rewrite Hid', Hseat'.
Qed.

Lemma roomsOk_insert (m : gmap string Room) (rc : string) (room' : Room) :
  (forall c r, m !! c = Some r -> roomOk c r) -> roomOk rc room' ->
  forall c r, <[rc := room']> m !! c = Some r -> roomOk c r.
Proof.
  intros Hm Hroom c r. rewrite lookup_insert. case_decide as E.
  - intros H. inversion H; by subst.
  - apply Hm.
Qed.

Lemma roomsOk_delete (m : gmap string Room) (rc : string) :
  (forall c r, m !! c = Some r -> roomOk c r) ->
  forall c r, delete rc m !! c = Some r -> roomOk c r.
Proof.
  intros Hm c r. rewrite lookup_delete. case_decide; [done|apply Hm].
Qed.

Lemma createRoom_ok (s : Server) (k : string) (codes : list string) (now : Z) :
  serverOk s -> serverOk (fst (createRoom s k codes now)).
Proof.
  intros Hs. unfold createRoom.
  destruct (List.find _ codes) as [rc|]; [|done].
  unfold serverOk. simpl. apply roomsOk_insert; [exact Hs|].
  repeat split; simpl; try done; try lia.
  - apply NoDup_singleton.
  - repeat constructor.
Qed.

Lemma joinRoom_ok (s : Server) (k rc : string) (now : Z) :
  serverOk s -> serverOk (fst (joinRoom s k rc now)).
Proof.
  intros Hs. unfold joinRoom.
  destruct (gameRooms s !! rc) as [room|] eqn:Hroom; [|done].
  destruct (Hs _ _ Hroom) as (Hcode & Hlen & Hnd & Hall & Hsec).
  destruct (2 <=? length (JsObj.keys (players room))) eqn:E; [done|].
  apply Nat.leb_gt in E. unfold JsObj.keys in E. rewrite length_map in E.
  destruct (started (gameState room)); [done|].
  unfold serverOk. simpl. apply roomsOk_insert; [exact Hs|].
  destruct (set_ok (players room) k (newPlayer k 2 "ผู้เล่น 2" now) Hnd Hall)
    as [Hnd' Hall']; [split; [done|by right]|].
  repeat split; simpl; try done.
  rewrite set_length. case_bool_decide; lia.
Qed.

Lemma handleReconnection_ok (s : Server) (k rc : string) (pn now : Z) :
  serverOk s -> serverOk (fst (handleReconnection s k rc pn now)).
Proof.
  intros Hs. unfold handleReconnection.
  destruct (gameRooms s !! rc) as [room|] eqn:Hroom; [|done].
  destruct (Hs _ _ Hroom) as (Hcode & Hlen & Hnd & Hall & Hsec).
  unfold findPlayerBySession. rewrite Hroom.
  destruct (List.find _ (players room)) as [[old player]|] eqn:Hfind; [|done].
  apply find_some in Hfind as [Hin _].
  assert (Hold : old ∈ JsObj.keys (players room)).
  { apply list_elem_of_In. change old with (fst (old, player)). by apply in_map. }
  assert (Hp : playerOk (old, player)).
  { rewrite Forall_forall in Hall. by apply Hall, list_elem_of_In. }
  set (player' := mkPlayer k (playerNumber player) (nickname player)
                    (ready player) true (Some false) now (Some now)).
  destruct (set_ok (players room) k player' Hnd Hall) as [Hnd1 Hall1];
    [split; [done|apply Hp]|].
  assert (Hok : roomOk rc
                  (withPlayers
                     (fun _ => if negb (String.eqb old k)
                               then JsObj.del old (JsObj.set k player' (players room))
                               else JsObj.set k player' (players room)) room)).
  { repeat split; simpl; try done.
    - destruct (String.eqb_spec old k) as [->|Hne]; simpl.
      + rewrite set_length, bool_decide_true; done.
      + assert (Hold' : old ∈ JsObj.keys (JsObj.set k player' (players room))).
        { rewrite set_keys. case_bool_decide; [done|].
          apply elem_of_app. by left. }
        pose proof (del_length_lt _ _ Hold').
        rewrite set_length in H. case_bool_decide; lia.
    - destruct (negb (String.eqb old k)); [|done]. by apply del_ok.
    - destruct (negb (String.eqb old k)); [|done]. by apply del_ok. }
  unfold serverOk.
  destruct (disconnectTimers room !! pn) as [t|] eqn:Ht; simpl;
    rewrite Ht; simpl; (apply roomsOk_insert; [exact Hs|]); apply Hok.
Qed.

Lemma attemptReconnect_ok (s : Server) (k rc : string) (pn now : Z) :
  serverOk s -> serverOk (fst (attemptReconnect s k rc pn now)).
Proof.
  intros Hs. unfold attemptReconnect.
  pose proof (handleReconnection_ok s k rc pn now Hs) as H.
  destruct (handleReconnection s k rc pn now) as [s1 [ | | | | | ]]; done.
Qed.

Lemma submitSecret_ok (s : Server) (k secret : string) (now : Z) :
  serverOk s -> serverOk (fst (submitSecret s k secret now)).
Proof.
  intros Hs. unfold submitSecret.
  destruct (playerSockets s !! k) as [rc|]; [|done].
  destruct (gameRooms s !! rc) as [room|] eqn:Hroom; [|done].
  destruct (Hs _ _ Hroom) as (Hcode & Hlen & Hnd & Hall & Hsec).
  destruct (JsObj.get k (players room)) as [player|] eqn:Hget; [|done].
  destruct (ready player); [done|].
  destruct (validateNumber secret) eqn:Hvalid; [|done]. cbn [negb].
  pose proof (get_playerOk _ _ _ Hall Hget) as Hp.
  destruct (set_ok (players room) k (setReady true player) Hnd Hall Hp)
    as [Hnd' Hall'].
  assert (Hk : k ∈ JsObj.keys (players room)).
  { destruct (decide (k ∈ JsObj.keys (players room))) as [|Hn]; [done|].
    apply get_None_keys in Hn. congruence. }
  unfold serverOk.
  match goal with |- context [if ?b then _ else _] => destruct b end; simpl;
    (apply roomsOk_insert; [exact Hs|]);
    (repeat split; simpl; try done;
     [rewrite set_length, bool_decide_true; done
     |intros k' sec; rewrite lookup_insert; case_decide;
      [intros H'; inversion H'; by subst|apply Hsec]]).
Qed.

Lemma makeGuess_ok (s : Server) (k guess : string) (now : Z) :
  serverOk s -> serverOk (fst (makeGuess s k guess now)).
Proof.
  intros Hs. unfold makeGuess, roomOf.
  destruct (playerSockets s !! k) as [rc|]; [|done].
  destruct (gameRooms s !! rc) as [room|] eqn:Hroom; [|done].
  destruct (Hs _ _ Hroom) as (Hcode & Hlen & Hnd & Hall & Hsec).
  destruct (started (gameState room)); [|done].
  destruct (validateNumber guess); [|done]. cbn [negb].
  destruct (JsObj.get k (players room)) as [player|]; [|done].
  destruct (Z.eqb (playerNumber player) (currentPlayer (gameState room))); [|done].
  cbn [negb].
  destruct (opponentSecret room k) as [[|a sec]|]; try done.
  generalize (checkGuess guess (String a sec)). intros res.
  unfold serverOk.
  destruct (correctPosition res =? 4); simpl;
    (apply roomsOk_insert; [exact Hs|]); repeat split; done.
Qed.

Lemma resetGame_ok (s : Server) (k : string) :
  serverOk s -> serverOk (resetGame s k).
Proof.
  intros Hs. unfold resetGame, roomOf.
  destruct (playerSockets s !! k) as [rc|]; [|done].
  destruct (gameRooms s !! rc) as [room|] eqn:Hroom; [|done].
  destruct (Hs _ _ Hroom) as (Hcode & Hlen & Hnd & Hall & Hsec).
  destruct (mapValues_ok (setReady false) (players room)) as (Hl & Hnd' & Hall');
    [done|done|done|].
  unfold serverOk. simpl.
  destruct (clearTimers_spec (disconnectTimers room) s) as [-> _].
  apply roomsOk_insert; [exact Hs|].
  repeat split; simpl; try done. by rewrite Hl.
Qed.

Lemma leaveRoom_ok (s : Server) (k : string) :
  serverOk s -> serverOk (leaveRoom s k).
Proof.
  intros Hs. unfold leaveRoom.
  destruct (playerSockets s !! k) as [rc|]; [|done].
  destruct (String.eqb rc ""); [done|].
  destruct (gameRooms s !! rc) as [room|] eqn:Hroom; [|done].
  destruct (Hs _ _ Hroom) as (Hcode & Hlen & Hnd & Hall & Hsec).
  destruct (JsObj.get k (players room)) as [player|]; [|done].
  destruct (del_ok (players room) k Hnd Hall) as (Hl & Hnd' & Hall').
  destruct (mapValues_ok (setReady false) (JsObj.del k (players room)))
    as (Hl2 & Hnd2 & Hall2); [done|done|done|].
  assert (Hsec' : forall k' sec,
             delete k (secrets (gameState room)) !! k' = Some sec ->
             validateNumber sec = true).
  { intros k' sec. rewrite lookup_delete. case_decide; [done|apply Hsec]. }
  unfold serverOk.
  destruct (disconnectTimers room !! playerNumber player) as [t|] eqn:Ht;
    simpl; rewrite Ht; simpl;
    destruct (started (gameState room)); simpl;
    match goal with |- context [if ?b then _ else _] => destruct b end; simpl;
    try (match goal with |- context [clearTimers ?tbl ?s0] =>
           destruct (clearTimers_spec tbl s0) as [-> _] end; simpl);
    first [apply roomsOk_delete; exact Hs
          | apply roomsOk_insert; [exact Hs|];
            repeat split; simpl; try done; lia ].
Qed.

Lemma ping_ok (s : Server) (k : string) (now : Z) :
  serverOk s -> serverOk (fst (ping s k now)).
Proof.
  intros Hs. unfold ping.
  destruct (playerSockets s !! k) as [rc|]; [|done].
  destruct (String.eqb rc ""); [done|].
  destruct (gameRooms s !! rc) as [room|] eqn:Hroom; [|done].
  destruct (Hs _ _ Hroom) as (Hcode & Hlen & Hnd & Hall & Hsec).
  destruct (JsObj.get k (players room)) as [p|] eqn:Hget; [|done].
  pose proof (get_playerOk _ _ _ Hall Hget) as Hp.
  destruct (set_ok (players room) k (setLastSeen now p) Hnd Hall Hp)
    as [Hnd' Hall'].
  assert (Hk : k ∈ JsObj.keys (players room)).
  { destruct (decide (k ∈ JsObj.keys (players room))) as [|Hn]; [done|].
    apply get_None_keys in Hn. congruence. }
  unfold serverOk. simpl. apply roomsOk_insert; [exact Hs|].
  repeat split; simpl; try done. rewrite set_length, bool_decide_true; done.
Qed.

Lemma handlePlayerDisconnect_ok (s : Server) (k rc : string) (now : Z) :
  serverOk s -> serverOk (handlePlayerDisconnect s k rc now).
Proof.
  intros Hs. unfold handlePlayerDisconnect.
  destruct (gameRooms s !! rc) as [room|] eqn:Hroom; [|done].
  destruct (Hs _ _ Hroom) as (Hcode & Hlen & Hnd & Hall & Hsec).
  destruct (JsObj.get k (players room)) as [p|] eqn:Hget; [|done].
  pose proof (get_playerOk _ _ _ Hall Hget) as Hp.
  set (p' := mkPlayer (playerId p) (playerNumber p) (nickname p) (ready p)
               false (Some true) now (reconnectedAt p)).
  destruct (set_ok (players room) k p' Hnd Hall Hp) as [Hnd' Hall'].
  assert (Hk : k ∈ JsObj.keys (players room)).
  { destruct (decide (k ∈ JsObj.keys (players room))) as [|Hn]; [done|].
    apply get_None_keys in Hn. congruence. }
  unfold serverOk. simpl. apply roomsOk_insert; [exact Hs|].
  repeat split; simpl; try done. rewrite set_length, bool_decide_true; done.
Qed.

Lemma disconnect_ok (s : Server) (k : string) (now : Z) :
  serverOk s -> serverOk (disconnect s k now).
Proof.
  intros Hs. unfold disconnect.
  destruct (playerSockets s !! k) as [rc|]; [|done].
  destruct (String.eqb rc ""); [done|]. by apply handlePlayerDisconnect_ok.
Qed.

Lemma fold_delete_lookup (R : list string) (m : gmap string string) (k : string) :
  fold_left (fun m k' => delete k' m) R m !! k
  = if bool_decide (k ∈ R) then None else m !! k.
Proof.
  revert m. induction R as [|k0 R IH]; intros m; simpl; [done|].
  rewrite IH, lookup_delete.
  destruct (decide (k0 = k)) as [->|Hne].
  - rewrite (bool_decide_true (k ∈ k :: R)); [|left]. by case_bool_decide.
  - case_bool_decide as E1; case_bool_decide as E2; try done.
    + exfalso. apply E2. by right.
    + apply elem_of_cons in E2 as [?|?]; [congruence|done].
Qed.

Lemma remove_seat_secrets (R : list string) (room : Room) :
  secrets
    (gameState
       (fold_left
          (fun r socketId =>
             withGameState (withSecrets (delete socketId))
               (withPlayers (JsObj.del socketId) r))
          R room))
  = fold_left (fun m k' => delete k' m) R (secrets (gameState room)).
Proof.
  revert room. induction R as [|k R IH]; intros room; simpl; [done|].
  by rewrite IH.
Qed.

Lemma handlePlayerTimeout_ok (s : Server) (rc : string) (pn : Z) :
  serverOk s -> serverOk (handlePlayerTimeout s rc pn).
Proof.
  intros Hs. unfold handlePlayerTimeout.
  destruct (gameRooms s !! rc) as [room|] eqn:Hroom; [|done].
  destruct (Hs _ _ Hroom) as (Hcode & Hlen & Hnd & Hall & Hsec).
  match goal with |- context [fold_left ?f ?R room] =>
    destruct (remove_seat_room R room) as (Hps & _ & _ & Hc & _);
    pose proof (remove_seat_secrets R room) as Hsecrets;
    set (room1 := fold_left f R room) in *;
    set (removed := R) in *
  end.
  rewrite fold_del in Hps.
  unfold serverOk.
  destruct (length (JsObj.keys (players room1)) =? 0); simpl;
    [apply roomsOk_delete; exact Hs|].
  assert (Hok : roomOk rc (withDisconnectTimers (delete pn) room1)).
  { repeat split; simpl.
    - congruence.
    - rewrite Hps. etrans; [apply filter_length_le|done].
    - rewrite Hps. by apply filter_keys_NoDup.
    - rewrite Hps. by apply filter_Forall.
    - intros k sec. rewrite Hsecrets, fold_delete_lookup.
      case_bool_decide; [done|apply Hsec]. }
  destruct (length (JsObj.keys (players room1)) =? 1); simpl.
  - destruct (JsObj.values (players room1)); simpl;
      (apply roomsOk_insert; [exact Hs|apply Hok]).
  - apply roomsOk_insert; [exact Hs|apply Hok].
Qed.

Lemma startGame_ok (s : Server) (ref : nat) (rc : string) (now : Z) :
  serverOk s -> serverOk (startGame s ref rc now).
Proof.
  intros Hs. unfold startGame.
  destruct (gameRooms s !! rc) as [room|] eqn:Hroom; [|done].
  destruct (Hs _ _ Hroom) as (Hcode & Hlen & Hnd & Hall & Hsec).
  destruct (roomRef room =? ref); [|done].
  unfold serverOk. simpl. apply roomsOk_insert; [exact Hs|].
  repeat split; done.
Qed.

Lemma countdownTick_rooms (s : Server) (t : nat) (rc : string) (pn timeLeft at_ : Z) :
  gameRooms (countdownTick s t rc pn timeLeft at_) = gameRooms s
  /\ playerSockets (countdownTick s t rc pn timeLeft at_) = playerSockets s.
Proof.
  unfold countdownTick. destruct (gameRooms s !! rc) as [room|]; [|done].
  destruct (existsb _ _); [done|]. by destruct (0 <? timeLeft - 1)%Z.
Qed.

Lemma fireTimer_ok (s : Server) (t : nat) (now : Z) :
  serverOk s -> serverOk (fireTimer s t now).
Proof.
  intros Hs. unfold fireTimer.
  destruct (timers s !! t) as [tm|]; [|done].
  destruct (now <? due tm)%Z; [done|].
  destruct (callback tm) as [rc pn|rc pn tl|ref rc].
  - by apply handlePlayerTimeout_ok.
  - unfold serverOk. by destruct (countdownTick_rooms s t rc pn tl (due tm)) as [-> _].
  - by apply startGame_ok.
Qed.

Lemma sweep_ok (s : Server) (now : Z) :
  serverOk s -> serverOk (sweep s now).
Proof.
  intros Hs rc room. rewrite sweep_lookup.
  destruct (gameRooms s !! rc) as [room0|] eqn:Hroom; [|done].
  destruct (shouldDelete now room0); [done|].
  intros H. inversion H; subst. by apply Hs.
Qed.

Lemma step_ok (s : Server) (a : Action) : serverOk s -> serverOk (step s a).
Proof.
  intros Hs. destruct a; simpl.
  - by apply createRoom_ok.
  - by apply joinRoom_ok.
  - by apply attemptReconnect_ok.
  - by apply submitSecret_ok.
  - by apply makeGuess_ok.
  - by apply resetGame_ok.
  - by apply leaveRoom_ok.
  - by apply ping_ok.
  - by apply disconnect_ok.
  - by apply fireTimer_ok.
  - by apply sweep_ok.
Qed.

Lemma run_ok (trace : list Action) (s : Server) :
  serverOk s -> serverOk (run s trace).
Proof.
  revert s. induction trace as [|a trace IH]; intros s Hs; [done|].
  simpl. apply IH. by apply step_ok.
Qed.

Lemma reachable_ok (s : Server) : reachable s -> serverOk s.
Proof.
  intros [trace <-]. apply run_ok. intros rc room H.
  simpl in H. by rewrite lookup_empty in H.
Qed.


(** X6.  In every state the server can reach, a room has at most two
    players. *)
Theorem X6_at_most_two_players (s : Server) (roomCode : string) (room : Room) :
  reachable s -> gameRooms s !! roomCode = Some room ->
  length (JsObj.keys (players room)) <= 2.
Proof.
  intros Hs Hroom. destruct (reachable_ok s Hs _ _ Hroom) as (_ & Hlen & _).
  unfold JsObj.keys. by rewrite length_map.
Qed.

Lemma X6_at_most_two_players_witness :
  length (JsObj.keys (players (roomAt (run initial graceTrace) "ROOM01"))) <= 2.
Proof.
  apply (X6_at_most_two_players (run initial graceTrace) "ROOM01").
  - by exists graceTrace.
  - vm_compute. reflexivity.
Defined.

(** X7.  In every reachable state a room is filed under its own code, the
    keys of its players are distinct, every player is filed under its own
    id, and every seat number is 1 or 2. *)
Theorem X7_rooms_well_formed (s : Server) (roomCode : string) (room : Room) :
  reachable s -> gameRooms s !! roomCode = Some room ->
  code room = roomCode
  /\ NoDup (JsObj.keys (players room))
  /\ forall k p, JsObj.get k (players room) = Some p ->
                 playerId p = k
                 /\ (playerNumber p = 1%Z \/ playerNumber p = 2%Z).
Proof.
  intros Hs Hroom.
  destruct (reachable_ok s Hs _ _ Hroom) as (Hcode & _ & Hnd & Hall & _).
  split; [done|]. split; [done|]. intros k p Hget.
  apply (get_playerOk _ _ _ Hall Hget).
Qed.

Lemma X7_rooms_well_formed_witness :
  let room := roomAt (run initial staleTimerTrace) "ROOM01" in
  code room = "ROOM01"
  /\ NoDup (JsObj.keys (players room))
  /\ forall k p, JsObj.get k (players room) = Some p ->
                 playerId p = k
                 /\ (playerNumber p = 1%Z \/ playerNumber p = 2%Z).
Proof.
  apply (X7_rooms_well_formed (run initial staleTimerTrace) "ROOM01").
  - by exists staleTimerTrace.
  - vm_compute. reflexivity.
Defined.

(** X8.  In every reachable state every recorded secret is a valid number:
    four decimal digits, pairwise distinct. *)
Theorem X8_secrets_valid (s : Server) (roomCode : string) (room : Room)
    (k secret : string) :
  reachable s -> gameRooms s !! roomCode = Some room ->
  secrets (gameState room) !! k = Some secret ->
  validateNumber secret = true.
Proof.
  intros Hs Hroom. destruct (reachable_ok s Hs _ _ Hroom) as (_ & _ & _ & _ & H).
  apply H.
Qed.

Lemma X8_secrets_valid_witness : validateNumber "5678" = true.
Proof.
  apply (X8_secrets_valid (run initial graceTrace) "ROOM01"
           (roomAt (run initial graceTrace) "ROOM01") "B" "5678").
  - by exists graceTrace.
  - vm_compute. reflexivity.
  - vm_compute. reflexivity.
Defined.

(** ** Creating and joining rooms *)

(** X9.  [createRoom] never takes a code that is in use: when it answers,
    the code is one of the generated ones and was free, every other room is
    as before, and the new room is in the lobby state with the caller as its
    only player, on seat 1, connected and not ready.  It has not answered
    only while every generated code is taken, and has changed nothing
    then. *)
Theorem X9_createRoom_fresh (s : Server) (k : string) (codes : list string) (now : Z) :
  let s' := fst (createRoom s k codes now) in
  match snd (createRoom s k codes now) with
  | Some ack =>
      exists rc room,
        ack = AckSeat rc 1
        /\ rc ∈ codes
        /\ gameRooms s !! rc = None
        /\ (forall c, c <> rc -> gameRooms s' !! c = gameRooms s !! c)
        /\ gameRooms s' !! rc = Some room
        /\ players room = [(k, mkPlayer k 1 "ผู้เล่น 1" false true None now None)]
        /\ gameState room = lobbyState
        /\ createdAt room = now
        /\ playerSockets s' !! k = Some rc
  | None => s' = s /\ Forall (fun c => is_Some (gameRooms s !! c)) codes
  end.
Proof.
  unfold createRoom.
  destruct (List.find _ codes) as [rc|] eqn:Hfind; simpl.
  - apply find_some in Hfind as [Hin Hfree].
    apply negb_true_iff, bool_decide_eq_false in Hfree.
    exists rc. eexists. split; [done|]. split; [by apply list_elem_of_In|].
    split; [by apply eq_None_not_Some|].
    split; [intros c Hc; by rewrite lookup_insert_ne|].
    split; [apply lookup_insert_eq|]. simpl.
    repeat split; try done. apply lookup_insert_eq.
  - split; [done|]. apply Forall_forall. intros c Hc.
    apply list_elem_of_In in Hc.
    pose proof (find_none _ _ Hfind c Hc) as H. simpl in H.
    apply negb_false_iff, bool_decide_eq_true in H. done.
Qed.

(** X10.  A socket that is in no room, creates a room and leaves it again
    leaves nothing behind: the rooms, the socket tables and the timers are
    as before. *)
Theorem X10_create_then_leave
    (s : Server) (k rc : string) (rest : list string) (now : Z) :
  gameRooms s !! rc = None -> rc <> "" ->
  playerSockets s !! k = None -> socketToPlayer s !! k = None ->
  let s' := leaveRoom (fst (createRoom s k (rc :: rest) now)) k in
  gameRooms s' = gameRooms s
  /\ playerSockets s' = playerSockets s
  /\ socketToPlayer s' = socketToPlayer s
  /\ timers s' = timers s.
Proof.
  intros Hrc Hne Hsock Hsess. unfold createRoom. simpl.
  rewrite Hrc. rewrite bool_decide_false by (intros [? ?]; done). simpl.
  unfold leaveRoom. simpl. rewrite lookup_insert_eq.
  rewrite (proj2 (String.eqb_neq rc "") Hne).
  rewrite lookup_insert_eq. simpl. rewrite !String.eqb_refl. simpl.
  rewrite lookup_empty. simpl. rewrite !String.eqb_refl. simpl.
  unfold clearTimers. rewrite map_fold_empty. simpl.
  repeat split; by apply delete_insert_id.
Qed.

Lemma X10_create_then_leave_witness :
  let s := run initial graceTrace in
  let s' := leaveRoom (fst (createRoom s "Z" ["ROOM02"] 20000)) "Z" in
  gameRooms s' = gameRooms s
  /\ playerSockets s' = playerSockets s
  /\ socketToPlayer s' = socketToPlayer s
  /\ timers s' = timers s.
Proof.
  apply (X10_create_then_leave (run initial graceTrace) "Z" "ROOM02" [] 20000);
    vm_compute; (reflexivity || discriminate).
Defined.

(** X11.  A room takes one joiner.  When a socket joins a room in the lobby
    that has one other player, it gets seat 2 and the room's game state is
    kept; from then on every [joinRoom] for that room is refused as full and
    changes nothing. *)
Theorem X11_join_fills_room
    (s : Server) (k rc : string) (now : Z) (room : Room) :
  gameRooms s !! rc = Some room ->
  length (JsObj.keys (players room)) = 1 ->
  JsObj.get k (players room) = None ->
  started (gameState room) = false ->
  let s' := fst (joinRoom s k rc now) in
  snd (joinRoom s k rc now) = AckSeat rc 2
  /\ (exists room',
         gameRooms s' !! rc = Some room'
         /\ players room'
            = players room ++ [(k, mkPlayer k 2 "ผู้เล่น 2" false true None now None)]
         /\ gameState room' = gameState room)
  /\ forall k' now', joinRoom s' k' rc now' = (s', AckFail MsgRoomFull).
Proof.
  intros Hroom Hlen Hget Hstarted. unfold joinRoom at 1 2 3.
  rewrite Hroom, Hlen, Hstarted. simpl.
  assert (Hset : forall (o : JsObj.t Player) p,
             JsObj.get k o = None -> JsObj.set k p o = o ++ [(k, p)]).
  { intros o p. induction o as [|[k0 v0] o IH]; simpl; [done|].
    destruct (String.eqb k0 k); [done|]. intros H. by rewrite IH. }
  split; [done|]. split.
  - eexists. split; [apply lookup_insert_eq|]. simpl.
    by rewrite (Hset _ _ Hget).
  - intros k' now'. unfold joinRoom. simpl. rewrite lookup_insert_eq. simpl.
    rewrite (Hset _ _ Hget).
    unfold JsObj.keys in *. rewrite length_map, length_app in *. simpl.
    rewrite Hlen. done.
Qed.

Lemma X11_join_fills_room_witness :
  let s := run initial soloTrace in
  let s' := fst (joinRoom s "B" "ROOM01" 1000) in
  snd (joinRoom s "B" "ROOM01" 1000) = AckSeat "ROOM01" 2
  /\ (exists room',
         gameRooms s' !! "ROOM01" = Some room'
         /\ players room'
            = players (roomAt s "ROOM01")
                ++ [("B", mkPlayer "B" 2 "ผู้เล่น 2" false true None 1000 None)]
         /\ gameState room' = gameState (roomAt s "ROOM01"))
  /\ forall k' now', joinRoom s' k' "ROOM01" now' = (s', AckFail MsgRoomFull).
Proof.
  apply (X11_join_fills_room (run initial soloTrace) "B" "ROOM01" 1000
           (roomAt (run initial soloTrace) "ROOM01"));
    vm_compute; reflexivity.
Defined.

(** ** Reconnecting *)

Lemma find_existsb {A} (f : A -> bool) (l : list A) :
  List.find f l = None <-> existsb f l = false.
Proof.
  induction l as [|x l IH]; simpl; [done|].
  destruct (f x); simpl; [split; discriminate|exact IH].
Qed.

(** X12.  [attemptReconnect] succeeds exactly when the room exists and has a
    player of the given seat number, whether or not that player is
    disconnected.  Otherwise it answers "room not found" or "player not
    found", changes nothing and broadcasts nothing. *)
Theorem X12_attemptReconnect_outcome
    (s : Server) (k rc : string) (pn now : Z) :
  match gameRooms s !! rc with
  | None => attemptReconnect s k rc pn now = (s, AckFail MsgRoomNotFound)
  | Some room =>
      if existsb (fun kp => Z.eqb (playerNumber (snd kp)) pn) (players room)
      then exists gs ps secret,
          snd (attemptReconnect s k rc pn now) = AckReconnect gs ps secret
      else attemptReconnect s k rc pn now = (s, AckFail MsgPlayerInfoNotFound)
  end.
Proof.
  unfold attemptReconnect, handleReconnection, findPlayerBySession.
  destruct (gameRooms s !! rc) as [room|] eqn:Hroom; [|done].
  destruct (List.find _ (players room)) as [[old player]|] eqn:Hfind.
  - destruct (existsb _ (players room)) eqn:E.
    + destruct (disconnectTimers _ !! pn); simpl; by do 3 eexists.
    + apply find_existsb in E. congruence.
  - apply find_existsb in Hfind. by rewrite Hfind.
Qed.

Lemma handleReconnection_success
    (s : Server) (k rc : string) (pn now : Z) (room : Room)
    (old : string) (player : Player) :
  gameRooms s !! rc = Some room ->
  findPlayerBySession s rc pn = Some (old, player) ->
  let player' :=
    mkPlayer k (playerNumber player) (nickname player) (ready player) true
      (Some false) now (Some now) in
  exists room' s',
    handleReconnection s k rc pn now
    = (s', AckReconnect (gameState room)
             (createCleanPlayersObject (players room'))
             (secrets (gameState room) !! k))
    /\ gameRooms s' = <[rc := room']> (gameRooms s)
    /\ players room'
       = (if negb (String.eqb old k)
          then JsObj.del old (JsObj.set k player' (players room))
          else JsObj.set k player' (players room))
    /\ gameState room' = gameState room
    /\ disconnectTimers room' = delete pn (disconnectTimers room)
    /\ playerSockets s' = <[k := rc]> (playerSockets s)
    /\ timers s'
       = match disconnectTimers room !! pn with
         | Some t => delete t (timers s)
         | None => timers s
         end
    /\ emitted s' = emitted s.
Proof.
  intros Hroom Hfind player'. unfold handleReconnection.
  rewrite Hroom, Hfind.
  exists (mkRoom (code room)
            (if negb (String.eqb old k)
             then JsObj.del old (JsObj.set k player' (players room))
             else JsObj.set k player' (players room))
            (gameState room) (createdAt room)
            (delete pn (disconnectTimers room)) (roomRef room)).
  simpl.
  destruct (disconnectTimers room !! pn) as [t|] eqn:Ht; simpl;
    eexists; (split; [reflexivity|]); simpl; repeat split; try done.
  unfold withPlayers. simpl. by rewrite delete_id.
Qed.

(** X13.  A successful reconnection rebinds the seat: the player is filed
    under the new socket id, connected, with its seat number, nickname and
    ready flag as before, and the old key is gone.  The players under any
    key other than the old one and the new socket id are untouched, and so
    is the whole game state; the snapshot carries, as [mySecret], what the
    secrets hold under the new socket id.  A player that was filed under
    the new socket id before, because the socket was already seated in the
    room on another seat, is overwritten: the room then has fewer players
    than before.  When the socket reconnects to its own key the number of
    players stays. *)
Theorem X13_reconnect_rebinds
    (s : Server) (k rc : string) (pn now : Z) (room : Room)
    (old : string) (player : Player) :
  gameRooms s !! rc = Some room ->
  findPlayerBySession s rc pn = Some (old, player) ->
  let s' := fst (attemptReconnect s k rc pn now) in
  exists room',
    gameRooms s' !! rc = Some room'
    /\ JsObj.get k (players room')
       = Some (mkPlayer k (playerNumber player) (nickname player) (ready player)
                 true (Some false) now (Some now))
    /\ (old <> k -> JsObj.get old (players room') = None)
    /\ (forall k', k' <> k -> k' <> old ->
                   JsObj.get k' (players room') = JsObj.get k' (players room))
    /\ gameState room' = gameState room
    /\ playerSockets s' !! k = Some rc
    /\ snd (attemptReconnect s k rc pn now)
       = AckReconnect (gameState room) (createCleanPlayersObject (players room'))
           (secrets (gameState room) !! k)
    /\ (old <> k -> is_Some (JsObj.get k (players room)) ->
        length (players room') < length (players room))
    /\ (old = k -> length (players room') = length (players room)).
Proof.
  intros Hroom Hfind s'. subst s'. unfold attemptReconnect.
  destruct (handleReconnection_success s k rc pn now room old player Hroom Hfind)
    as (room' & s1 & -> & Hrooms & Hps & Hgs & _ & Hsock & _ & _).
  assert (Hold : old ∈ JsObj.keys (players room)).
  { unfold findPlayerBySession in Hfind. rewrite Hroom in Hfind.
    apply find_some in Hfind as [Hin _]. apply list_elem_of_In.
    change old with (fst (old, player)). by apply in_map. }
  simpl. exists room'. rewrite Hrooms, Hsock, Hps, !lookup_insert_eq.
  split; [done|].
  destruct (String.eqb_spec old k) as [->|Hne]; simpl.
  - rewrite get_set_eq. repeat split; try done.
    + intros k' Hk' _. by rewrite get_set_ne.
    + intros _. by rewrite set_length, bool_decide_true.
  - rewrite get_del_ne, get_set_eq by done. repeat split; try done.
    + intros _. apply get_del_eq.
    + intros k' Hk' Hk''. rewrite get_del_ne, get_set_ne; done.
    + intros _ [q Hq].
      assert (Hk : k ∈ JsObj.keys (players room)).
      { destruct (decide (k ∈ JsObj.keys (players room))) as [|Hn]; [done|].
        apply get_None_keys in Hn. congruence. }
      match goal with |- length (JsObj.del old (JsObj.set k ?q' _)) < _ =>
        pose proof (del_length_lt (JsObj.set k q' (players room)) old) as Hlt;
        rewrite set_keys, set_length, !bool_decide_true in Hlt by done
      end.
      by apply Hlt.
Qed.

Lemma X13_reconnect_rebinds_witness :
  let s := run initial graceTrace in
  let s' := fst (attemptReconnect s "C" "ROOM01" 2 15000) in
  let lobby := run initial lobbyTrace in
  let taken := fst (attemptReconnect lobby "A" "ROOM01" 2 1500) in
  (exists room',
      gameRooms s' !! "ROOM01" = Some room'
      /\ JsObj.get "C" (players room')
         = Some (mkPlayer "C" 2 "ผู้เล่น 2" true true (Some false) 15000 (Some 15000%Z))
      /\ JsObj.get "B" (players room') = None
      /\ JsObj.get "A" (players room') = JsObj.get "A" (players (roomAt s "ROOM01"))
      /\ gameState room' = gameState (roomAt s "ROOM01")
      /\ playerSockets s' !! "C" = Some "ROOM01"
      /\ snd (attemptReconnect s "C" "ROOM01" 2 15000)
         = AckReconnect (gameState (roomAt s "ROOM01"))
             (createCleanPlayersObject (players room'))
             (secrets (gameState (roomAt s "ROOM01")) !! "C"))
  /\ (exists room',
         gameRooms taken !! "ROOM01" = Some room'
         /\ JsObj.get "A" (players room')
            = Some (mkPlayer "A" 2 "ผู้เล่น 2" false true (Some false) 1500
                      (Some 1500%Z))
         /\ JsObj.get "B" (players room') = None
         /\ length (players room') < length (players (roomAt lobby "ROOM01"))).
Proof.
  split.
  - destruct (X13_reconnect_rebinds (run initial graceTrace) "C" "ROOM01" 2 15000
                (roomAt (run initial graceTrace) "ROOM01") "B"
                (mkPlayer "B" 2 "ผู้เล่น 2" true false (Some true) 10000 None))
      as (room' & H1 & H2 & H3 & H4 & H5 & H6 & H7 & _ & _);
      [vm_compute; reflexivity | vm_compute; reflexivity |].
    exists room'. split; [exact H1|]. split; [exact H2|].
    split; [apply H3; discriminate|].
    split; [apply H4; discriminate|].
    split; [exact H5|]. split; [exact H6|exact H7].
  - destruct (X13_reconnect_rebinds (run initial lobbyTrace) "A" "ROOM01" 2 1500
                (roomAt (run initial lobbyTrace) "ROOM01") "B"
                (mkPlayer "B" 2 "ผู้เล่น 2" false true None 1000 None))
      as (room' & H1 & H2 & H3 & _ & _ & _ & _ & H8 & _);
      [vm_compute; reflexivity | vm_compute; reflexivity |].
    exists room'. split; [exact H1|]. split; [exact H2|].
    split; [apply H3; discriminate|].
    apply H8; [discriminate|]. eexists. vm_compute. reflexivity.
Defined.

(** ** Losing the connection *)

Lemma handlePlayerDisconnect_effect
    (s : Server) (k rc : string) (now : Z) (room : Room) (p : Player) :
  gameRooms s !! rc = Some room ->
  JsObj.get k (players room) = Some p ->
  let s' := handlePlayerDisconnect s k rc now in
  exists room',
    gameRooms s' !! rc = Some room'
    /\ JsObj.get k (players room')
       = Some (mkPlayer (playerId p) (playerNumber p) (nickname p) (ready p)
                 false (Some true) now (reconnectedAt p))
    /\ (forall k', k' <> k ->
                   JsObj.get k' (players room') = JsObj.get k' (players room))
    /\ gameState room' = gameState room
    /\ disconnectTimers room' !! playerNumber p = Some (nextTimer s)
    /\ timers s' !! nextTimer s
       = Some (mkTimer (now + 30000) (ExpiryCb rc (playerNumber p)))
    /\ timers s' !! S (nextTimer s)
       = Some (mkTimer (now + 1000) (CountdownCb rc (playerNumber p) 30))
    /\ emitted s'
       = emitted s ++ [ToRoomExcept rc k (PlayerDisconnected (playerNumber p) 30)]
    /\ playerSockets s' = playerSockets s.
Proof.
  intros Hroom Hget s'. subst s'. unfold handlePlayerDisconnect.
  rewrite Hroom, Hget. simpl.
  eexists. split; [apply lookup_insert_eq|]. simpl.
  split; [apply get_set_eq|].
  split; [intros k' Hk'; by apply get_set_ne|].
  split; [done|]. split; [apply lookup_insert_eq|].
  split; [rewrite lookup_insert_ne by lia; apply lookup_insert_eq|].
  split; [apply lookup_insert_eq|]. done.
Qed.

(** X14.  A disconnect keeps the seat.  The player stays in the room under
    its key with its seat number, nickname and ready flag, now marked
    disconnected; the other players and the game state, secrets included,
    are untouched; an expiry timer due in 30 s is registered for the seat, a
    countdown interval due in 1 s is started, and the others in the room are
    told. *)
Theorem X14_disconnect_keeps_seat
    (s : Server) (k rc : string) (now : Z) (room : Room) (p : Player) :
  gameRooms s !! rc = Some room ->
  JsObj.get k (players room) = Some p ->
  let s' := handlePlayerDisconnect s k rc now in
  exists room',
    gameRooms s' !! rc = Some room'
    /\ JsObj.get k (players room')
       = Some (mkPlayer (playerId p) (playerNumber p) (nickname p) (ready p)
                 false (Some true) now (reconnectedAt p))
    /\ (forall k', k' <> k ->
                   JsObj.get k' (players room') = JsObj.get k' (players room))
    /\ gameState room' = gameState room
    /\ disconnectTimers room' !! playerNumber p = Some (nextTimer s)
    /\ timers s' !! nextTimer s
       = Some (mkTimer (now + 30000) (ExpiryCb rc (playerNumber p)))
    /\ timers s' !! S (nextTimer s)
       = Some (mkTimer (now + 1000) (CountdownCb rc (playerNumber p) 30))
    /\ emitted s'
       = emitted s ++ [ToRoomExcept rc k (PlayerDisconnected (playerNumber p) 30)]
    /\ playerSockets s' = playerSockets s.
Proof. apply handlePlayerDisconnect_effect. Qed.

Lemma X14_disconnect_keeps_seat_witness :
  let s := run initial startedTrace in
  let p := mkPlayer "B" 2 "ผู้เล่น 2" true true None 1000 None in
  let s' := handlePlayerDisconnect s "B" "ROOM01" 10000 in
  exists room',
    gameRooms s' !! "ROOM01" = Some room'
    /\ JsObj.get "B" (players room')
       = Some (mkPlayer (playerId p) (playerNumber p) (nickname p) (ready p)
                 false (Some true) 10000 (reconnectedAt p))
    /\ (forall k', k' <> "B" ->
                   JsObj.get k' (players room')
                   = JsObj.get k' (players (roomAt s "ROOM01")))
    /\ gameState room' = gameState (roomAt s "ROOM01")
    /\ disconnectTimers room' !! playerNumber p = Some (nextTimer s)
    /\ timers s' !! nextTimer s
       = Some (mkTimer (10000 + 30000) (ExpiryCb "ROOM01" (playerNumber p)))
    /\ timers s' !! S (nextTimer s)
       = Some (mkTimer (10000 + 1000) (CountdownCb "ROOM01" (playerNumber p) 30))
    /\ emitted s'
       = emitted s
           ++ [ToRoomExcept "ROOM01" "B" (PlayerDisconnected (playerNumber p) 30)]
    /\ playerSockets s' = playerSockets s.
Proof.
  apply (X14_disconnect_keeps_seat (run initial startedTrace) "B" "ROOM01" 10000
           (roomAt (run initial startedTrace) "ROOM01")
           (mkPlayer "B" 2 "ผู้เล่น 2" true true None 1000 None));
    vm_compute; reflexivity.
Defined.

(** X15.  Disconnect, then reconnect.  When a seated socket drops and the
    seat number is then reconnected from any socket, the reconnection
    succeeds, the expiry timer of the disconnect is no longer pending and
    does nothing when its time comes, and the countdown interval, at its
    next tick, stops without a broadcast and without touching the rooms. *)
Theorem X15_disconnect_then_reconnect
    (s : Server) (k k2 rc : string) (now now2 now3 : Z) (room : Room) (p : Player) :
  gameRooms s !! rc = Some room ->
  JsObj.get k (players room) = Some p ->
  (now + 1000 <= now3)%Z ->
  let s1 := handlePlayerDisconnect s k rc now in
  let s2 := fst (attemptReconnect s1 k2 rc (playerNumber p) now2) in
  let s3 := fireTimer s2 (S (nextTimer s)) now3 in
  (exists gs ps secret,
      snd (attemptReconnect s1 k2 rc (playerNumber p) now2)
      = AckReconnect gs ps secret)
  /\ timers s2 !! nextTimer s = None
  /\ fireTimer s2 (nextTimer s) now3 = s2
  /\ timers s3 !! S (nextTimer s) = None
  /\ emitted s3 = emitted s2
  /\ gameRooms s3 = gameRooms s2.
Proof.
  intros Hroom Hget Hnow s1 s2 s3.
  destruct (handlePlayerDisconnect_effect s k rc now room p Hroom Hget)
    as (room1 & Hroom1 & Hget1 & _ & _ & Htable & Hexp & Hcount & _ & _).
  fold s1 in Hroom1, Hexp, Hcount.
  destruct (findPlayerBySession s1 rc (playerNumber p)) as [[old player]|] eqn:Hfind.
  2:{ exfalso. unfold findPlayerBySession in Hfind. rewrite Hroom1 in Hfind.
      apply find_existsb in Hfind.
      assert (existsb (fun kv => Z.eqb (playerNumber (snd kv)) (playerNumber p))
                (players room1) = true); [|congruence].
      apply existsb_exists. eexists. split; [apply (get_In _ _ _ Hget1)|].
      simpl. apply Z.eqb_refl. }
  assert (Hseat : playerNumber player = playerNumber p).
  { unfold findPlayerBySession in Hfind. rewrite Hroom1 in Hfind.
    apply find_some in Hfind as [_ H]. by apply Z.eqb_eq in H. }
  destruct (handleReconnection_success s1 k2 rc (playerNumber p) now2 room1
              old player Hroom1 Hfind)
    as (room2 & s2' & Heq & Hrooms & Hps & _ & _ & _ & Htimers & Hemit).
  assert (Hs2 : s2 = emit (ToRoomExcept rc k2 (StopReconnectCountdown (playerNumber p)))
                       (emit (ToRoomExcept rc k2 (PlayerReconnected (playerNumber p))) s2')).
  { subst s2. unfold attemptReconnect. by rewrite Heq. }
  rewrite Htable in Htimers.
  assert (Ht2 : timers s2 = delete (nextTimer s) (timers s1)).
  { rewrite Hs2. simpl. exact Htimers. }
  assert (Hr2 : gameRooms s2 !! rc = Some room2).
  { rewrite Hs2. simpl. rewrite Hrooms. apply lookup_insert_eq. }
  assert (Hget2 : JsObj.get k2 (players room2)
                  = Some (mkPlayer k2 (playerNumber player) (nickname player)
                            (ready player) true (Some false) now2 (Some now2))).
  { rewrite Hps. destruct (String.eqb_spec old k2) as [->|Hne]; simpl.
    - apply get_set_eq.
    - rewrite get_del_ne by done. apply get_set_eq. }
  split.
  { unfold attemptReconnect. rewrite Heq. by do 3 eexists. }
  split; [rewrite Ht2; apply lookup_delete_eq|].
  split.
  { unfold fireTimer. by rewrite Ht2, lookup_delete_eq. }
  subst s3. unfold fireTimer.
  rewrite Ht2, lookup_delete_ne by lia. rewrite Hcount. simpl.
  rewrite (proj2 (Z.ltb_ge _ _) Hnow).
  unfold countdownTick. rewrite Hr2.
  assert (Hex : existsb
                  (fun q => Z.eqb (playerNumber q) (playerNumber p) && connected q)
                  (JsObj.values (players room2)) = true).
  { apply existsb_exists. eexists. split.
    - unfold JsObj.values. apply in_map_iff.
      eexists. split; [|apply (get_In _ _ _ Hget2)]. reflexivity.
    - simpl. rewrite Hseat, Z.eqb_refl. done. }
  rewrite Hex. simpl. split; [|done].
  rewrite lookup_delete_eq. done.
Qed.

Lemma X15_disconnect_then_reconnect_witness :
  let s := run initial startedTrace in
  let s1 := handlePlayerDisconnect s "B" "ROOM01" 10000 in
  let s2 := fst (attemptReconnect s1 "C" "ROOM01" 2 15000) in
  let s3 := fireTimer s2 (S (nextTimer s)) 16000 in
  (exists gs ps secret,
      snd (attemptReconnect s1 "C" "ROOM01" 2 15000) = AckReconnect gs ps secret)
  /\ timers s2 !! nextTimer s = None
  /\ fireTimer s2 (nextTimer s) 16000 = s2
  /\ timers s3 !! S (nextTimer s) = None
  /\ emitted s3 = emitted s2
  /\ gameRooms s3 = gameRooms s2.
Proof.
  apply (X15_disconnect_then_reconnect (run initial startedTrace) "B" "C" "ROOM01"
           10000 15000 16000 (roomAt (run initial startedTrace) "ROOM01")
           (mkPlayer "B" 2 "ผู้เล่น 2" true true None 1000 None));
    vm_compute; (reflexivity || discriminate).
Defined.

(** ** Expiry, again *)

(** X16.  What the expiry removes.  For a room whose keys are distinct,
    [handlePlayerTimeout] takes the socket of every player of the seat out
    of [playerSockets] and leaves the other sockets and the other rooms
    alone; if the room remains, it holds exactly the players of the other
    seats, in their order, with their secrets and without those of the
    removed players, and the state of the game (started, turn, history) is
    as it was. *)
Theorem X16_timeout_removes_seat
    (s : Server) (rc : string) (pn : Z) (room : Room) :
  gameRooms s !! rc = Some room ->
  NoDup (JsObj.keys (players room)) ->
  let s' := handlePlayerTimeout s rc pn in
  (forall k p, JsObj.get k (players room) = Some p ->
               playerSockets s' !! k
               = if Z.eqb (playerNumber p) pn then None else playerSockets s !! k)
  /\ (forall k, JsObj.get k (players room) = None ->
                playerSockets s' !! k = playerSockets s !! k)
  /\ (forall c, c <> rc -> gameRooms s' !! c = gameRooms s !! c)
  /\ (forall room',
         gameRooms s' !! rc = Some room' ->
         players room'
         = List.filter (fun kv => negb (Z.eqb (playerNumber (snd kv)) pn))
             (players room)
         /\ (forall k p, JsObj.get k (players room) = Some p ->
                         secrets (gameState room') !! k
                         = if Z.eqb (playerNumber p) pn then None
                           else secrets (gameState room) !! k)
         /\ started (gameState room') = started (gameState room)
         /\ history (gameState room') = history (gameState room)).
Proof.
  intros Hroom Hnd s'. subst s'. unfold handlePlayerTimeout. rewrite Hroom.
  match goal with |- context [fold_left ?f ?R room] =>
    destruct (remove_seat_room R room) as (Hps & Hhist & Hst & _ & _);
    pose proof (remove_seat_secrets R room) as Hsecrets;
    set (room1 := fold_left f R room) in *;
    rewrite (remove_seat_players _ pn Hnd) in Hps;
    set (removed := R) in *
  end.
  assert (Hrem : forall k p, JsObj.get k (players room) = Some p ->
                             bool_decide (k ∈ removed) = Z.eqb (playerNumber p) pn).
  { intros k p Hget. subst removed.
    destruct (Z.eqb (playerNumber p) pn) eqn:E.
    - apply bool_decide_eq_true, list_elem_of_In, filter_In. split.
      + change k with (fst (k, p)). apply in_map. by apply get_In.
      + by rewrite Hget.
    - apply bool_decide_eq_false. intros Hin.
      apply list_elem_of_In, filter_In in Hin as [_ Hin].
      rewrite Hget in Hin. congruence. }
  assert (Hrem' : forall k, JsObj.get k (players room) = None ->
                            bool_decide (k ∈ removed) = false).
  { intros k Hget. apply bool_decide_eq_false. intros Hin.
    apply list_elem_of_In, filter_In in Hin as [_ Hin]. by rewrite Hget in Hin. }
  assert (Hsock : forall k,
             playerSockets
               (withSockets
                  (fun m => fold_left (fun m socketId => delete socketId m) removed m)
                  s) !! k
             = if bool_decide (k ∈ removed) then None else playerSockets s !! k).
  { intros k. simpl. apply fold_delete_lookup. }
  destruct (length (JsObj.keys (players room1)) =? 0) eqn:E0.
  - simpl. split; [intros k p Hget; by rewrite fold_delete_lookup, (Hrem k p)|].
    split; [intros k Hget; by rewrite fold_delete_lookup, (Hrem' k)|].
    split; [intros c Hc; by rewrite lookup_delete_ne|].
    intros room'. by rewrite lookup_delete_eq.
  - assert (Hrest : forall s2,
               gameRooms s2 = gameRooms s ->
               playerSockets s2
               = fold_left (fun m socketId => delete socketId m) removed
                   (playerSockets s) ->
               let s' := putRoom rc (withDisconnectTimers (delete pn) room1) s2 in
               (forall k p, JsObj.get k (players room) = Some p ->
                            playerSockets s' !! k
                            = if Z.eqb (playerNumber p) pn then None
                              else playerSockets s !! k)
               /\ (forall k, JsObj.get k (players room) = None ->
                             playerSockets s' !! k = playerSockets s !! k)
               /\ (forall c, c <> rc -> gameRooms s' !! c = gameRooms s !! c)
               /\ (forall room',
                      gameRooms s' !! rc = Some room' ->
                      players room'
                      = List.filter
                          (fun kv => negb (Z.eqb (playerNumber (snd kv)) pn))
                          (players room)
                      /\ (forall k p, JsObj.get k (players room) = Some p ->
                                      secrets (gameState room') !! k
                                      = if Z.eqb (playerNumber p) pn then None
                                        else secrets (gameState room) !! k)
                      /\ started (gameState room') = started (gameState room)
                      /\ history (gameState room') = history (gameState room))).
    { intros s2 Hg Hp. simpl. rewrite Hg, Hp.
      split; [intros k p Hget; by rewrite fold_delete_lookup, (Hrem k p)|].
      split; [intros k Hget; by rewrite fold_delete_lookup, (Hrem' k)|].
      split; [intros c Hc; by rewrite lookup_insert_ne|].
      intros room'. rewrite lookup_insert_eq. intros H. inversion H; subst room'.
      simpl. split; [done|]. split; [|done].
      intros k p Hget. by rewrite Hsecrets, fold_delete_lookup, (Hrem k p). }
    destruct (length (JsObj.keys (players room1)) =? 1);
      [destruct (JsObj.values (players room1))|]; by apply Hrest.
Qed.

Lemma X16_timeout_removes_seat_witness :
  let s := run initial graceTrace in
  let room := roomAt s "ROOM01" in
  let s' := handlePlayerTimeout s "ROOM01" 2 in
  (forall k p, JsObj.get k (players room) = Some p ->
               playerSockets s' !! k
               = if Z.eqb (playerNumber p) 2 then None else playerSockets s !! k)
  /\ (forall k, JsObj.get k (players room) = None ->
                playerSockets s' !! k = playerSockets s !! k)
  /\ (forall c, c <> "ROOM01" -> gameRooms s' !! c = gameRooms s !! c)
  /\ (forall room',
         gameRooms s' !! "ROOM01" = Some room' ->
         players room'
         = List.filter (fun kv => negb (Z.eqb (playerNumber (snd kv)) 2))
             (players room)
         /\ (forall k p, JsObj.get k (players room) = Some p ->
                         secrets (gameState room') !! k
                         = if Z.eqb (playerNumber p) 2 then None
                           else secrets (gameState room) !! k)
         /\ started (gameState room') = started (gameState room)
         /\ history (gameState room') = history (gameState room)).
Proof.
  apply (X16_timeout_removes_seat (run initial graceTrace) "ROOM01" 2
           (roomAt (run initial graceTrace) "ROOM01")).
  - vm_compute. reflexivity.
  - apply (bool_decide_unpack _). vm_compute. exact I.
Defined.

(** ** Submitting and starting *)

Lemma get_keys {V} (o : JsObj.t V) (k : string) (v : V) :
  JsObj.get k o = Some v -> k ∈ JsObj.keys o.
Proof.
  intros H. destruct (decide (k ∈ JsObj.keys o)) as [|Hn]; [done|].
  apply get_None_keys in Hn. congruence.
Qed.

(** X17.  A secret is submitted once.  When a seated player that is not
    ready submits a valid secret, the secret is recorded under the player's
    socket id and the player becomes ready, while the other secrets, the
    other players and the course of the game stay as they are; after that,
    whatever the player submits is answered with success and changes
    nothing, so the recorded secret stays. *)
Theorem X17_submitSecret_once
    (s : Server) (k rc secret : string) (now : Z) (room : Room) (p : Player) :
  playerSockets s !! k = Some rc ->
  gameRooms s !! rc = Some room ->
  JsObj.get k (players room) = Some p ->
  ready p = false ->
  validateNumber secret = true ->
  let s' := fst (submitSecret s k secret now) in
  snd (submitSecret s k secret now) = AckOk MsgSubmitted
  /\ (exists room',
         gameRooms s' !! rc = Some room'
         /\ secrets (gameState room') !! k = Some secret
         /\ (forall k', k' <> k ->
                        secrets (gameState room') !! k'
                        = secrets (gameState room) !! k')
         /\ JsObj.get k (players room') = Some (setReady true p)
         /\ (forall k', k' <> k ->
                        JsObj.get k' (players room') = JsObj.get k' (players room))
         /\ started (gameState room') = started (gameState room)
         /\ currentPlayer (gameState room') = currentPlayer (gameState room)
         /\ history (gameState room') = history (gameState room))
  /\ forall secret' now',
      submitSecret s' k secret' now' = (s', AckOk MsgAlreadySubmitted).
Proof.
  intros Hsock Hroom Hget Hready Hvalid. unfold submitSecret at 1 2 3.
  rewrite Hsock, Hroom, Hget, Hready, Hvalid. cbn [negb].
  match goal with |- context [if ?b then _ else _] => destruct b end; simpl;
    (split; [done|]); split;
    try (eexists; split; [apply lookup_insert_eq|]; simpl;
         split; [apply lookup_insert_eq|];
         split; [intros k' Hk'; by apply lookup_insert_ne|];
         split; [apply get_set_eq|];
         split; [intros k' Hk'; by apply get_set_ne|]; done);
    intros secret' now'; unfold submitSecret; simpl;
    rewrite Hsock, lookup_insert_eq; simpl; by rewrite get_set_eq.
Qed.

Lemma X17_submitSecret_once_witness :
  let s := run initial lobbyTrace in
  let room := roomAt s "ROOM01" in
  let p := mkPlayer "A" 1 "ผู้เล่น 1" false true None 0 None in
  let s' := fst (submitSecret s "A" "1234" 2000) in
  snd (submitSecret s "A" "1234" 2000) = AckOk MsgSubmitted
  /\ (exists room',
         gameRooms s' !! "ROOM01" = Some room'
         /\ secrets (gameState room') !! "A" = Some "1234"
         /\ (forall k', k' <> "A" ->
                        secrets (gameState room') !! k'
                        = secrets (gameState room) !! k')
         /\ JsObj.get "A" (players room') = Some (setReady true p)
         /\ (forall k', k' <> "A" ->
                        JsObj.get k' (players room') = JsObj.get k' (players room))
         /\ started (gameState room') = started (gameState room)
         /\ currentPlayer (gameState room') = currentPlayer (gameState room)
         /\ history (gameState room') = history (gameState room))
  /\ forall secret' now',
      submitSecret s' "A" secret' now' = (s', AckOk MsgAlreadySubmitted).
Proof.
  apply (X17_submitSecret_once (run initial lobbyTrace) "A" "ROOM01" "1234" 2000
           (roomAt (run initial lobbyTrace) "ROOM01")
           (mkPlayer "A" 1 "ผู้เล่น 1" false true None 0 None));
    vm_compute; reflexivity.
Defined.

(** X18.  The second secret starts the game.  In a room of two players
    under distinct keys where the other player is ready, a valid secret of
    the player that is not ready arms a start callback due 500 ms later;
    when that callback fires on the room as the submission left it, the game
    is started with seat 1 to move and an empty history, the secrets and the
    players are kept, and [gameStart] is broadcast to the room. *)
Theorem X18_second_secret_starts
    (s : Server) (k rc secret : string) (now now' : Z) (room : Room) (p : Player) :
  playerSockets s !! k = Some rc ->
  gameRooms s !! rc = Some room ->
  JsObj.get k (players room) = Some p ->
  ready p = false ->
  validateNumber secret = true ->
  length (players room) = 2 ->
  NoDup (JsObj.keys (players room)) ->
  (forall k' p', JsObj.get k' (players room) = Some p' -> k' <> k ->
                 ready p' = true) ->
  (now + 500 <= now')%Z ->
  let s1 := fst (submitSecret s k secret now) in
  let s2 := fireTimer s1 (nextTimer s) now' in
  timers s1 !! nextTimer s = Some (mkTimer (now + 500) (StartCb (roomRef room) rc))
  /\ timers s2 !! nextTimer s = None
  /\ emitted s2 = emitted s1 ++ [ToRoom rc (GameStart 1 now')]
  /\ exists room2,
      gameRooms s2 !! rc = Some room2
      /\ started (gameState room2) = true
      /\ currentPlayer (gameState room2) = 1%Z
      /\ history (gameState room2) = []
      /\ startedAt (gameState room2) = Some now'
      /\ secrets (gameState room2) = <[k := secret]> (secrets (gameState room))
      /\ players room2 = JsObj.set k (setReady true p) (players room).
Proof.
  intros Hsock Hroom Hget Hready Hvalid Hlen Hnd Hothers Hnow s1 s2.
  subst s2 s1. unfold submitSecret.
  rewrite Hsock, Hroom, Hget, Hready, Hvalid. cbn [negb].
  assert (Hall : forallb ready
                   (JsObj.values (JsObj.set k (setReady true p) (players room)))
                 = true).
  { apply forallb_forall. intros q Hq. unfold JsObj.values in Hq.
    apply in_map_iff in Hq as ([k' p'] & <- & Hin). simpl.
    destruct (decide (k' = k)) as [->|Hne].
    - by rewrite (set_In_same _ _ _ _ Hnd Hin).
    - pose proof (set_In_other _ _ _ _ Hnd Hin Hne) as Hin'.
      apply (Hothers k' p'); [|done]. by apply get_of_entry. }
  assert (Hcount : length (JsObj.values (JsObj.set k (setReady true p) (players room)))
                   = 2).
  { unfold JsObj.values. rewrite length_map, set_length, bool_decide_true; [done|].
    by eapply get_keys. }
  simpl. rewrite Hall, Hcount. simpl.
  split; [apply lookup_insert_eq|].
  unfold fireTimer. simpl. rewrite lookup_insert_eq. simpl.
  rewrite (proj2 (Z.ltb_ge _ _) Hnow).
  unfold startGame. simpl. rewrite lookup_insert_eq. simpl.
  rewrite Nat.eqb_refl. simpl.
  split; [apply lookup_delete_eq|]. split; [done|].
  eexists. split; [apply lookup_insert_eq|]. done.
Qed.

Lemma X18_second_secret_starts_witness :
  let s := run initial (lobbyTrace ++ [ASubmitSecret "A" "1234" 2000]) in
  let room := roomAt s "ROOM01" in
  let p := mkPlayer "B" 2 "ผู้เล่น 2" false true None 1000 None in
  let s1 := fst (submitSecret s "B" "5678" 3000) in
  let s2 := fireTimer s1 (nextTimer s) 3500 in
  timers s1 !! nextTimer s
  = Some (mkTimer (3000 + 500) (StartCb (roomRef room) "ROOM01"))
  /\ timers s2 !! nextTimer s = None
  /\ emitted s2 = emitted s1 ++ [ToRoom "ROOM01" (GameStart 1 3500)]
  /\ exists room2,
      gameRooms s2 !! "ROOM01" = Some room2
      /\ started (gameState room2) = true
      /\ currentPlayer (gameState room2) = 1%Z
      /\ history (gameState room2) = []
      /\ startedAt (gameState room2) = Some 3500%Z
      /\ secrets (gameState room2) = <["B" := "5678"]> (secrets (gameState room))
      /\ players room2 = JsObj.set "B" (setReady true p) (players room).
Proof.
  apply (X18_second_secret_starts
           (run initial (lobbyTrace ++ [ASubmitSecret "A" "1234" 2000]))
           "B" "ROOM01" "5678" 3000 3500
           (roomAt (run initial (lobbyTrace ++ [ASubmitSecret "A" "1234" 2000]))
              "ROOM01")
           (mkPlayer "B" 2 "ผู้เล่น 2" false true None 1000 None));
    try (vm_compute; (reflexivity || discriminate)).
  - apply (bool_decide_unpack _). vm_compute. exact I.
  - intros k' p' Hget Hne.
    change (players (roomAt (run initial (lobbyTrace ++ [ASubmitSecret "A" "1234" 2000]))
                       "ROOM01"))
      with [("A", mkPlayer "A" 1 "ผู้เล่น 1" true true None 0 None);
            ("B", mkPlayer "B" 2 "ผู้เล่น 2" false true None 1000 None)] in Hget.
    cbn [JsObj.get] in Hget.
    destruct (String.eqb_spec "A" k') as [<-|HA]; [by inversion Hget|].
    destruct (String.eqb_spec "B" k') as [<-|HB]; [done|discriminate].
Defined.

(** ** Guessing, again *)

(** X19.  What an accepted guess is checked against.  When [makeGuess]
    accepts a guess, the guess is a valid number, the acknowledged result is
    [checkGuess] of the guess and the secret filed under the first other key
    of the room, and the guess changes neither the secrets nor the players
    nor the started flag nor any timer, socket entry or other room. *)
Theorem X19_makeGuess_result
    (s : Server) (k guess : string) (now : Z) (r : GuessResult) (win : bool) :
  snd (makeGuess s k guess now) = AckGuess r win ->
  let s' := fst (makeGuess s k guess now) in
  exists rc room secret room',
    playerSockets s !! k = Some rc
    /\ gameRooms s !! rc = Some room
    /\ validateNumber guess = true
    /\ opponentSecret room k = Some secret
    /\ r = checkGuess guess secret
    /\ gameRooms s' !! rc = Some room'
    /\ secrets (gameState room') = secrets (gameState room)
    /\ players room' = players room
    /\ started (gameState room') = true
    /\ timers s' = timers s
    /\ playerSockets s' = playerSockets s
    /\ (forall c, c <> rc -> gameRooms s' !! c = gameRooms s !! c).
Proof.
  intros Hack s'. subst s'. revert Hack. makeGuess_cases; cbn [fst snd]; try done.
  match goal with H : roomOf _ _ = Some _ |- _ =>
    apply roomOf_Some in H as (roomCode & Hsock & Hroom) end.
  match goal with H : playerSockets _ !! _ = Some _ |- _ =>
    rewrite H in Hsock; inversion Hsock; subst roomCode end.
  destruct (correctPosition (checkGuess guess _) =? 4) eqn:Hwin; cbn [fst snd];
    intros Hack; inversion Hack; subst r win; clear Hack;
    do 4 eexists; (split; [eassumption|]); (split; [eassumption|]);
    (split; [reflexivity|]); (split; [eassumption|]); (split; [reflexivity|]);
    (split; [apply lookup_insert_eq|]); simpl;
    repeat split; try done; intros c Hc; by apply lookup_insert_ne.
Qed.

Lemma X19_makeGuess_result_witness :
  let s := run initial startedTrace in
  let s' := fst (makeGuess s "A" "5612" 4000) in
  exists rc room secret room',
    playerSockets s !! "A" = Some rc
    /\ gameRooms s !! rc = Some room
    /\ validateNumber "5612" = true
    /\ opponentSecret room "A" = Some secret
    /\ mkGuessResult 2 2 = checkGuess "5612" secret
    /\ gameRooms s' !! rc = Some room'
    /\ secrets (gameState room') = secrets (gameState room)
    /\ players room' = players room
    /\ started (gameState room') = true
    /\ timers s' = timers s
    /\ playerSockets s' = playerSockets s
    /\ (forall c, c <> rc -> gameRooms s' !! c = gameRooms s !! c).
Proof.
  apply (X19_makeGuess_result (run initial startedTrace) "A" "5612" 4000
           (mkGuessResult 2 2) false).
  vm_compute. reflexivity.
Defined.

Lemma validateNumber_length (num : string) :
  validateNumber num = true -> length (list_ascii_of_string num) = 4.
Proof.
  unfold validateNumber.
  destruct (length (list_ascii_of_string num) =? 4) eqn:E; [|done].
  intros _. by apply Nat.eqb_eq.
Qed.

(** X20.  In every reachable state an accepted guess is a win exactly when
    it is the secret of the opponent. *)
Theorem X20_win_iff_secret
    (s : Server) (k guess : string) (now : Z) (r : GuessResult) (win : bool) :
  reachable s ->
  snd (makeGuess s k guess now) = AckGuess r win ->
  exists rc room secret,
    playerSockets s !! k = Some rc
    /\ gameRooms s !! rc = Some room
    /\ opponentSecret room k = Some secret
    /\ (win = true <-> guess = secret).
Proof.
  intros Hreach. pose proof (reachable_ok s Hreach) as Hok.
  makeGuess_cases; cbn [fst snd]; try done.
  match goal with H : roomOf _ _ = Some _ |- _ =>
    apply roomOf_Some in H as (roomCode & Hsock & Hroom) end.
  match goal with H : playerSockets _ !! _ = Some _ |- _ =>
    rewrite H in Hsock; inversion Hsock; subst roomCode end.
  match goal with H : opponentSecret _ _ = Some ?x |- _ =>
    set (secret := x) in *; rename H into Hsecret end.
  assert (Hvalid : validateNumber secret = true).
  { destruct (Hok _ _ Hroom) as (_ & _ & _ & _ & Hsec).
    unfold opponentSecret in Hsecret. by eapply Hsec. }
  assert (Hwin : (correctPosition (checkGuess guess secret) =? 4) = true
                 <-> guess = secret).
  { rewrite Nat.eqb_eq.
    match goal with H : validateNumber guess = true |- _ =>
      pose proof (validateNumber_length _ H) as Hg end.
    pose proof (validateNumber_length _ Hvalid) as Hs.
    destruct (correctPosition_aligned guess secret Hg Hs) as [-> _].
    rewrite (aligned_four_eq _ _ Hg Hs). split.
    - apply list_ascii_of_string_eq.
    - by intros ->. }
  destruct (correctPosition (checkGuess guess secret) =? 4) eqn:E; cbn [fst snd];
    intros Hack; inversion Hack; subst r win;
    do 3 eexists; (split; [eassumption|]); (split; [eassumption|]);
    (split; [eassumption|]); exact Hwin.
Qed.

Lemma X20_win_iff_secret_witness :
  let s := run initial startedTrace in
  exists rc room secret,
    playerSockets s !! "A" = Some rc
    /\ gameRooms s !! rc = Some room
    /\ opponentSecret room "A" = Some secret
    /\ (true = true <-> "5678" = secret).
Proof.
  apply (X20_win_iff_secret (run initial startedTrace) "A" "5678" 4000
           (mkGuessResult 4 4) true).
  - by exists startedTrace.
  - vm_compute. reflexivity.
Defined.

(** ** Reset and leave *)

(** X21.  [resetGame] puts the room back into the lobby for everybody in it:
    afterwards every guess from a socket of the room is refused because the
    game has not started and changes nothing, and every seated player can
    submit a valid secret anew. *)
Theorem X21_reset_back_to_lobby
    (s : Server) (k rc : string) (room : Room) :
  playerSockets s !! k = Some rc ->
  gameRooms s !! rc = Some room ->
  let s' := resetGame s k in
  (forall k' guess now,
      playerSockets s !! k' = Some rc ->
      makeGuess s' k' guess now = (s', AckFail MsgGameNotStarted))
  /\ (forall k' p secret now,
         playerSockets s !! k' = Some rc ->
         JsObj.get k' (players room) = Some p ->
         validateNumber secret = true ->
         snd (submitSecret s' k' secret now) = AckOk MsgSubmitted).
Proof.
  intros Hsock Hroom s'. subst s'. unfold resetGame, roomOf.
  rewrite Hsock, Hroom.
  destruct (clearTimers_spec (disconnectTimers room) s)
    as (Hrooms & Hsockets & _ & _ & _ & _).
  split.
  - intros k' guess now Hk'. unfold makeGuess, roomOf. simpl.
    rewrite Hsockets, Hk', lookup_insert_eq. done.
  - intros k' p secret now Hk' Hget Hvalid. unfold submitSecret. simpl.
    rewrite Hsockets, Hk', lookup_insert_eq. simpl.
    rewrite get_mapValues, Hget. simpl. rewrite Hvalid. done.
Qed.

Lemma X21_reset_back_to_lobby_witness :
  let s := run initial graceTrace in
  let room := roomAt s "ROOM01" in
  let s' := resetGame s "A" in
  (forall k' guess now,
      playerSockets s !! k' = Some "ROOM01" ->
      makeGuess s' k' guess now = (s', AckFail MsgGameNotStarted))
  /\ (forall k' p secret now,
         playerSockets s !! k' = Some "ROOM01" ->
         JsObj.get k' (players room) = Some p ->
         validateNumber secret = true ->
         snd (submitSecret s' k' secret now) = AckOk MsgSubmitted).
Proof.
  apply (X21_reset_back_to_lobby (run initial graceTrace) "A" "ROOM01"
           (roomAt (run initial graceTrace) "ROOM01"));
    vm_compute; reflexivity.
Defined.

(** X22.  Leaving a room.  The leaving socket is taken out of both socket
    tables and the other sockets keep their entries.  When it was the only
    player the room is deleted without a broadcast.  Otherwise the room goes
    on without the player and its secret: in a started game the rest of the
    game state and the other players are kept as they are, so the game goes
    on without a winner being declared; in the lobby the game state becomes
    the lobby state and the remaining players are made not ready.  The room
    is told with [playerLeft] and a room update, and nothing else. *)
Theorem X22_leaveRoom_effect
    (s : Server) (k rc : string) (room : Room) (p : Player) :
  playerSockets s !! k = Some rc ->
  rc <> "" ->
  gameRooms s !! rc = Some room ->
  JsObj.get k (players room) = Some p ->
  let s' := leaveRoom s k in
  let rest := JsObj.del k (players room) in
  playerSockets s' = delete k (playerSockets s)
  /\ socketToPlayer s' = delete k (socketToPlayer s)
  /\ (rest = [] -> gameRooms s' !! rc = None /\ emitted s' = emitted s)
  /\ (rest <> [] ->
      exists room',
        gameRooms s' !! rc = Some room'
        /\ JsObj.get k (players room') = None
        /\ (if started (gameState room)
            then players room' = rest
                 /\ gameState room' = withSecrets (delete k) (gameState room)
            else players room' = JsObj.mapValues (setReady false) rest
                 /\ gameState room' = lobbyState)
        /\ emitted s'
           = emitted s
               ++ [ToRoom rc (PlayerLeft (playerNumber p));
                   ToRoom rc
                     (RoomUpdate rc (createCleanPlayersObject (players room'))
                        (gameState room'))]).
Proof.
  intros Hsock Hne Hroom Hget. cbv zeta. unfold leaveRoom.
  rewrite Hsock, (proj2 (String.eqb_neq rc "") Hne), Hroom, Hget.
  assert (Hgone : forall o : JsObj.t Player,
             JsObj.get k (JsObj.mapValues (setReady false) (JsObj.del k o)) = None).
  { intros o. by rewrite get_mapValues, get_del_eq. }
  pose proof (get_del_eq (players room) k) as Hgone'.
  pose proof (Hgone (players room)) as Hgone''.
  destruct (disconnectTimers room !! playerNumber p) as [t|] eqn:Ht;
    simpl; rewrite Ht; simpl;
    destruct (started (gameState room)) eqn:Hst; simpl;
    change (List.filter (fun kv => negb (String.eqb (fst kv) k)) (players room))
      with (JsObj.del k (players room)) in *;
    destruct (JsObj.del k (players room)) as [|kp rest'] eqn:Hrest; simpl;
    try match goal with |- context [clearTimers ?tbl ?s0] =>
          destruct (clearTimers_spec tbl s0) as (Hr & Hs1 & Hs2 & He & _);
          rewrite ?Hr, ?Hs1, ?Hs2, ?He; simpl
        end;
    (split; [done|]); (split; [done|]); split;
    try done;
    try (intros _; split; [apply lookup_delete_eq|done]).
  all: intros _; eexists; (split; [apply lookup_insert_eq|]);
    cbn [players gameState withPlayers withGameState withDisconnectTimers];
    rewrite Hrest.
  all: split; [first [exact Hgone' | exact Hgone'']|].
  all: split; [done|]. all: by rewrite <- app_assoc.
Qed.

Lemma X22_leaveRoom_effect_witness :
  let s := run initial startedTrace in
  let room := roomAt s "ROOM01" in
  let p := mkPlayer "B" 2 "ผู้เล่น 2" true true None 1000 None in
  let s' := leaveRoom s "B" in
  let rest := JsObj.del "B" (players room) in
  playerSockets s' = delete "B" (playerSockets s)
  /\ socketToPlayer s' = delete "B" (socketToPlayer s)
  /\ (rest = [] -> gameRooms s' !! "ROOM01" = None /\ emitted s' = emitted s)
  /\ (rest <> [] ->
      exists room',
        gameRooms s' !! "ROOM01" = Some room'
        /\ JsObj.get "B" (players room') = None
        /\ (if started (gameState room)
            then players room' = rest
                 /\ gameState room' = withSecrets (delete "B") (gameState room)
            else players room' = JsObj.mapValues (setReady false) rest
                 /\ gameState room' = lobbyState)
        /\ emitted s'
           = emitted s
               ++ [ToRoom "ROOM01" (PlayerLeft (playerNumber p));
                   ToRoom "ROOM01"
                     (RoomUpdate "ROOM01" (createCleanPlayersObject (players room'))
                        (gameState room'))]).
Proof.
  apply (X22_leaveRoom_effect (run initial startedTrace) "B" "ROOM01"
           (roomAt (run initial startedTrace) "ROOM01")
           (mkPlayer "B" 2 "ผู้เล่น 2" true true None 1000 None));
    vm_compute; (reflexivity || discriminate).
Defined.

(** ** Sweep, again *)

Lemma sweep_frame (s : Server) (now : Z) :
  playerSockets (sweep s now) = playerSockets s
  /\ socketToPlayer (sweep s now) = socketToPlayer s
  /\ emitted (sweep s now) = emitted s.
Proof.
  unfold sweep.
  apply (map_fold_weak_ind
           (fun acc (m : gmap string Room) =>
              playerSockets acc = playerSockets s
              /\ socketToPlayer acc = socketToPlayer s
              /\ emitted acc = emitted s)); [done|].
  intros rc room m acc _ (H1 & H2 & H3).
  destruct (shouldDelete now room); [|done]. simpl.
  destruct (clearTimers_spec (disconnectTimers room) acc) as (_ & -> & -> & -> & _).
  done.
Qed.

Lemma sweep_nothing (now : Z) (b : Server) (m : gmap string Room) :
  (forall c r, m !! c = Some r -> shouldDelete now r = false) ->
  map_fold
    (fun roomCode room acc =>
       if shouldDelete now room
       then withRooms (delete roomCode) (clearTimers (disconnectTimers room) acc)
       else acc)
    b m = b.
Proof.
  apply (map_fold_weak_ind
           (fun acc (m : gmap string Room) =>
              (forall c r, m !! c = Some r -> shouldDelete now r = false) ->
              acc = b)); [done|].
  intros rc room m' acc Hrc IH Hall.
  rewrite (Hall rc room) by apply lookup_insert_eq.
  apply IH. intros c r Hc. apply (Hall c r).
  rewrite lookup_insert_ne; [done|]. intros ->. congruence.
Qed.

(** X23.  The sweep is idempotent: a second pass at the same time changes
    nothing.  A pass never touches the socket tables and broadcasts
    nothing, so the sockets of a deleted room keep pointing at its code. *)
Theorem X23_sweep_idempotent (s : Server) (now : Z) :
  sweep (sweep s now) now = sweep s now
  /\ playerSockets (sweep s now) = playerSockets s
  /\ socketToPlayer (sweep s now) = socketToPlayer s
  /\ emitted (sweep s now) = emitted s.
Proof.
  split; [|apply sweep_frame].
  unfold sweep at 1. apply sweep_nothing. intros c r.
  rewrite sweep_lookup. destruct (gameRooms s !! c) as [r0|]; [|done].
  destruct (shouldDelete now r0) eqn:E; [done|]. intros H. by inversion H; subst.
Qed.

(** ** The countdown *)

(** X24.  The countdown of a seat that stays away.  While the room keeps
    existing and no player of the seat is connected, a countdown interval
    that holds [d+1] seconds is gone after [d+1] ticks; its ticks broadcast
    [d], [d-1], ..., 1 to the room, never 0, and leave the rooms alone. *)
Theorem X24_countdown_runs_out
    (d : nat) (s : Server) (t : nat) (rc : string) (pn at_ : Z) (room : Room) :
  gameRooms s !! rc = Some room ->
  existsb (fun q => Z.eqb (playerNumber q) pn && connected q)
    (JsObj.values (players room)) = false ->
  timers s !! t = Some (mkTimer at_ (CountdownCb rc pn (Z.of_nat (S d)))) ->
  let s' := fireRepeatedly (S d) s t in
  timers s' !! t = None
  /\ gameRooms s' = gameRooms s
  /\ emitted s'
     = emitted s
         ++ List.map (fun i => ToRoom rc (ReconnectCountdown pn (Z.of_nat i)))
              (rev (seq 1 d)).
Proof.
  revert s at_. induction d as [|d IH]; intros s at_ Hroom Hex Ht.
  - simpl. rewrite Ht. unfold fireTimer. rewrite Ht. simpl.
    rewrite Z.ltb_irrefl. unfold countdownTick. rewrite Hroom, Hex. simpl.
    rewrite lookup_delete_eq. by rewrite app_nil_r.
  - assert (Hstep : fireRepeatedly (S (S d)) s t
                    = fireRepeatedly (S d) (fireTimer s t at_) t)
      by (cbn [fireRepeatedly]; by rewrite Ht).
    cbv zeta. rewrite Hstep.
    set (s1 := fireTimer s t at_).
    assert (Hs1 : s1 = withTimers
                         (fun m => <[t := mkTimer (at_ + 1000)
                                            (CountdownCb rc pn (Z.of_nat (S d)))]> m)
                         (emit (ToRoom rc (ReconnectCountdown pn (Z.of_nat (S d)))) s)).
    { subst s1. unfold fireTimer. rewrite Ht. simpl.
      rewrite Z.ltb_irrefl. unfold countdownTick. rewrite Hroom, Hex.
      replace (Z.of_nat (S (S d)) - 1)%Z with (Z.of_nat (S d)) by lia.
      replace (0 <? Z.of_nat (S d))%Z with true; [done|].
      symmetry. apply Z.ltb_lt. lia. }
    destruct (IH s1 (at_ + 1000)%Z) as (H1 & H2 & H3).
    + by rewrite Hs1.
    + exact Hex.
    + rewrite Hs1. simpl. apply lookup_insert_eq.
    + split; [exact H1|]. split; [by rewrite H2, Hs1|].
      rewrite H3, Hs1. cbn [emitted withTimers emit].
      rewrite <- app_assoc. f_equal.
      rewrite seq_S, rev_app_distr. done.
Qed.

Lemma X24_countdown_runs_out_witness :
  let s := run initial graceTrace in
  let s' := fireRepeatedly 30 s 2 in
  timers s' !! 2 = None
  /\ gameRooms s' = gameRooms s
  /\ emitted s'
     = emitted s
         ++ List.map (fun i => ToRoom "ROOM01" (ReconnectCountdown 2 (Z.of_nat i)))
              (rev (seq 1 29)).
Proof.
  apply (X24_countdown_runs_out 29 (run initial graceTrace) 2 "ROOM01" 2 11000
           (roomAt (run initial graceTrace) "ROOM01"));
    vm_compute; reflexivity.
Defined.
